(** * ts-strictify: change-set resolution and diagnostic correlation

    A shallow embedding of [src/main.ts].  The program queries git for the
    files changed on the current branch, removes the files changed on the
    branches to ignore, runs [tsc] once over the project and attributes the
    lines of its output to the changed files by substring search.

    Modelling choices:
    - JavaScript strings are [string] (a sequence of character codes, compared
      code by code); arrays are [list]; counters ([number]) are [nat], as they
      only ever count lines.
    - The external collaborators ([execa], [simple-git]) are a [World] of
      answers: a call with the same arguments gets the same answer.  Every
      call to them, every callback of [Args] and every [console] call is
      recorded in a trace of [Event]s; the callbacks are taken to return
      normally.
    - A promise is a computation [M A]: a trace and either a value or a thrown
      exception (a rejected promise).  [Promise.all] runs its members in array
      order; the properties below do not depend on the interleaving. *)

From Stdlib Require Import List String Ascii Bool Arith Lia Permutation.
Import ListNotations.
Open Scope string_scope.
Open Scope list_scope.

Set Implicit Arguments.

(** ** JavaScript strings and arrays *)

Module Js.

(** [s.includes(sub)]: [sub] occurs in [s] at some position. *)
Fixpoint includes (s sub : string) : bool :=
  String.prefix sub s ||
  match s with
  | EmptyString => false
  | String _ s' => includes s' sub
  end.

(** [s.split('\n')], for any one-character separator: the pieces between the
    separators, in order; never the empty array. *)
Fixpoint split (sep : ascii) (s : string) : list string :=
  match s with
  | EmptyString => [EmptyString]
  | String c s' =>
      if Ascii.eqb c sep then EmptyString :: split sep s'
      else match split sep s' with
           | piece :: pieces => String c piece :: pieces
           | [] => [String c EmptyString]
           end
  end.

(** [pieces.join(sep)], the inverse of [split]. *)
Fixpoint join (sep : ascii) (pieces : list string) : string :=
  match pieces with
  | [] => EmptyString
  | [piece] => piece
  | piece :: rest => piece ++ String sep (join sep rest)
  end.

(** [arr.includes(x)] on an array of strings (SameValueZero is string
    equality there). *)
Definition arrayIncludes (arr : list string) (x : string) : bool :=
  existsb (String.eqb x) arr.

(** [Array.from(new Set(arr))]: a [Set] keeps the first occurrence of each
    value, in insertion order. *)
Definition setAdd (set : list string) (x : string) : list string :=
  if arrayIncludes set x then set else set ++ [x].

Definition arrayFromSet (arr : list string) : list string :=
  fold_left setAdd arr [].

End Js.

(** ** Line 4: the extension predicate

    [fileName.match(/\.tsx?$/)]: an unanchored search, so every start
    position is tried; at a position the pattern wants a dot, [t], [s], an
    optional [x] and then the end of the input (no [m] flag: [$] is the end of
    the string only), so what is left of the input there is [.ts] or
    [.tsx]. *)

Definition matchHere (s : string) : bool :=
  String.eqb s ".ts" || String.eqb s ".tsx".

Fixpoint isSupportedExtension (fileName : string) : bool :=
  matchHere fileName ||
  match fileName with
  | EmptyString => false
  | String _ rest => isSupportedExtension rest
  end.

(** ** Exceptions, events and the promise monad *)

Inductive Exn : Type :=
| TypeError (message : string).

Inductive Result (A : Type) : Type :=
| Ok (value : A)
| Throw (e : Exn).

Arguments Ok {A} value.
Arguments Throw {A} e.

(** A token of an argument vector: [getTypeScriptCompileOutput] passes the
    option values as they are, after each flag. *)
Inductive Arg : Type :=
| ArgStr (s : string)
| ArgBool (b : bool).

Inductive Event : Type :=
| EvExeca (file : string) (args : list Arg)
| EvGitStatus
| EvGitDiffSummary (baseRevision childRevision : string)
| EvConsoleWarn (message : string)
| EvConsoleError (message : string)
| EvConsoleLog (line : string)
| EvFoundSinceRevision (revision : option string)
| EvFoundChangedFiles (changedFiles : list string)
| EvCheckFile (file : string) (hasErrors : bool).

Definition M (A : Type) : Type := (list Event * Result A)%type.

Definition ret {A} (a : A) : M A := ([], Ok a).

Definition throw {A} (e : Exn) : M A := ([], Throw e).

Definition emit (ev : Event) : M unit := ([ev], Ok tt).

Definition bind {A B} (m : M A) (k : A -> M B) : M B :=
  match m with
  | (t, Ok a) => let (t', r) := k a in (t ++ t', r)
  | (t, Throw e) => (t, Throw e)
  end.

Notation "x <- m ;; k" := (bind m (fun x => k))
  (at level 61, m at next level, right associativity).
Notation "m ;;; k" := (bind m (fun _ => k))
  (at level 61, right associativity).

Definition trace {A} (m : M A) : list Event := fst m.
Definition outcome {A} (m : M A) : Result A := snd m.

(** [Promise.all(arr.map(f))].  The members are recorded one after another,
    in array order; the code starts them together, so between the events of
    different members the real order is that of completion.  The results come
    in array order in both.  Statements about a trace therefore speak of the
    events of one member, of counts, or of events up to reordering. *)
Fixpoint promiseAllMap {A B} (f : A -> M B) (arr : list A) : M (list B) :=
  match arr with
  | [] => ret []
  | x :: rest =>
      y <- f x ;;
      ys <- promiseAllMap f rest ;;
      ret (y :: ys)
  end.

(** [arr.reduce(f)] with no initial value: the first element seeds the fold,
    and the empty array is a [TypeError]. *)
Definition reduceNoInit {A} (f : A -> A -> A) (arr : list A) : M A :=
  match arr with
  | [] => throw (TypeError "Reduce of empty array with no initial value")
  | first :: rest => ret (fold_left f rest first)
  end.

(** [arr.reduce(f, init)] with an effectful callback. *)
Fixpoint reduceM {A B} (f : B -> A -> M B) (arr : list A) (init : B) : M B :=
  match arr with
  | [] => ret init
  | x :: rest => acc <- f init x ;; reduceM f rest acc
  end.

(** ** The external collaborators *)

(** Why [execa] rejected.  The program never looks at it. *)
Inductive ExecaFailure : Type :=
| ExitNonZero (exitCode : nat)
| SpawnFailed (errno : string)
| Killed (signal : string).

(** The error [execa] rejects with.  [all] is the interleaved stdout and
    stderr when the error carries it, [undefined] ([None]) otherwise. *)
Record ExecaError : Type := {
  failure : ExecaFailure;
  all : option string
}.

Inductive ExecaResult : Type :=
| Resolved (stdout : string)
| Rejected (error : ExecaError).

(** What [simpleGit().status()] resolves to (the fields the program reads). *)
Record StatusResult : Type := {
  created : list string;
  modified : list string;
  not_added : list string
}.

(** What [simpleGit().diffSummary(..)] resolves to. *)
Record DiffResultFile : Type := { file : string }.
Record DiffResult : Type := { files : list DiffResultFile }.

(** The answers of the outside world; [None] is a rejected promise. *)
Record World : Type := {
  execa : string -> list Arg -> ExecaResult;
  status : option StatusResult;
  diffSummary : string -> string -> option DiffResult
}.

(** Lines 61-70.  [entries] is [Object.entries(options)], taken in the order
    of the interface; at run time it is the key order of the object the
    caller passes.  Nothing below depends on that order. *)
Record TypeScriptOptions : Type := {
  noImplicitAny : bool;
  noImplicitThis : bool;
  alwaysStrict : bool;
  strictBindCallApply : bool;
  strictNullChecks : bool;
  strictFunctionTypes : bool;
  strictPropertyInitialization : bool;
  noEmit : bool
}.

Definition entries (options : TypeScriptOptions) : list (string * bool) :=
  [ ("noImplicitAny", noImplicitAny options);
    ("noImplicitThis", noImplicitThis options);
    ("alwaysStrict", alwaysStrict options);
    ("strictBindCallApply", strictBindCallApply options);
    ("strictNullChecks", strictNullChecks options);
    ("strictFunctionTypes", strictFunctionTypes options);
    ("strictPropertyInitialization", strictPropertyInitialization options);
    ("noEmit", noEmit options) ].

(** Lines 72-80.  The four callbacks are the events [EvFoundSinceRevision],
    [EvFoundChangedFiles] and [EvCheckFile]; [onExamineFile] is never
    called. *)
Record Args : Type := {
  typeScriptOptions : TypeScriptOptions;
  targetBranch : string;
  ignoreFilesChangedOnBranch : list string
}.

(** Lines 82-85. *)
Record StrictifyResult : Type := {
  success : bool;
  errors : nat
}.

(** ** The program *)

Section Program.

Variable w : World.

Definition mergeBaseArgs (branch targetBranch : string) : list Arg :=
  [ArgStr "merge-base"; ArgStr "--fork-point"; ArgStr targetBranch; ArgStr branch].

(** Lines 6-12. *)
Definition findCommitAtWhichBranchForkedFromTargetBranch
    (branch targetBranch : string) : M (option string) :=
  emit (EvExeca "git" (mergeBaseArgs branch targetBranch)) ;;;
  match execa w "git" (mergeBaseArgs branch targetBranch) with
  | Resolved stdout => ret (Some stdout)
  | Rejected _ => ret None
  end.

(** Lines 14-18. *)
Definition findCommitAtWhichTheCurrentBranchForkedFromTargetBranch
    (targetBranch : string) : M (option string) :=
  findCommitAtWhichBranchForkedFromTargetBranch "HEAD" targetBranch.

(** Lines 20-28. *)
Definition findModifiedAndUntrackedFiles : M (list string) :=
  emit EvGitStatus ;;;
  match status w with
  | Some st => ret (created st ++ modified st ++ not_added st)
  | None =>
      emit (EvConsoleWarn "Can not find modified and untracked files") ;;;
      ret []
  end.

(** Lines 30-44. *)
Definition findFilesFromDiffToRevision
    (baseRevision : option string) (childRevision : string) : M (list string) :=
  match baseRevision with
  | None => ret []
  | Some base =>
      emit (EvGitDiffSummary base childRevision) ;;;
      match diffSummary w base childRevision with
      | Some summary =>
          ret (fold_left (fun result f => result ++ [file f]) (files summary) [])
      | None =>
          emit (EvConsoleError "Can not find files that changed compared to master") ;;;
          ret []
      end
  end.

(** Lines 47-49: each option becomes its name behind two dashes, followed by
    its value. *)
Definition compileArgs (options : TypeScriptOptions) : list Arg :=
  fold_left (fun result kv => result ++ [fst kv; snd kv])
    (map (fun kv => (ArgStr ("--" ++ fst kv), ArgBool (snd kv))) (entries options))
    [].

(** Lines 46-59.  Whatever makes [execa] reject ends in the [catch]; there
    [all] is taken for a string, and [undefined.split] is a [TypeError]. *)
Definition getTypeScriptCompileOutput (options : TypeScriptOptions) : M (list string) :=
  emit (EvExeca "tsc" (compileArgs options)) ;;;
  match execa w "tsc" (compileArgs options) with
  | Resolved _ => ret []
  | Rejected error =>
      match all error with
      | Some text => ret (Js.split "010" text)
      | None => throw (TypeError "Cannot read property 'split' of undefined")
      end
  end.

(** Lines 127-137: the body of the reducer, for one file.  [errorCount] is
    the reducer's local counter, [totalErrorCount] its accumulator. *)
Fixpoint scanLines (fileName : string) (tscOut : list string)
    (totalErrorCount errorCount : nat) : M (nat * nat) :=
  match tscOut with
  | [] => ret (totalErrorCount, errorCount)
  | line :: rest =>
      if Js.includes line fileName then
        (if Nat.eqb errorCount 0 then emit (EvCheckFile fileName true) else ret tt) ;;;
        emit (EvConsoleLog line) ;;;
        scanLines fileName rest (S totalErrorCount) (S errorCount)
      else scanLines fileName rest totalErrorCount errorCount
  end.

Definition checkFile (tscOut : list string) (totalErrorCount : nat)
    (fileName : string) : M nat :=
  counts <- scanLines fileName tscOut totalErrorCount 0 ;;
  (if Nat.eqb (snd counts) 0 then emit (EvCheckFile fileName false) else ret tt) ;;;
  ret (fst counts).

(** Lines 100-108. *)
Definition findExcludedFiles (args : Args) : M (list string) :=
  perBranch <- promiseAllMap
    (fun branchWithChangesToIgnore =>
       baseCommit <- findCommitAtWhichBranchForkedFromTargetBranch
                       branchWithChangesToIgnore (targetBranch args) ;;
       findFilesFromDiffToRevision baseCommit branchWithChangesToIgnore)
    (ignoreFilesChangedOnBranch args) ;;
  reduceNoInit (fun accumulator currentValue => accumulator ++ currentValue) perBranch.

(** Lines 110-113.  The two queries are members of one [Promise.all]: they
    are recorded one after the other, the code starts both before either
    settles. *)
Definition findChangedFiles (commit : option string) : M (list string) :=
  a <- findModifiedAndUntrackedFiles ;;
  b <- findFilesFromDiffToRevision commit "HEAD" ;;
  ret (filter isSupportedExtension (Js.arrayFromSet (a ++ b))).

(** Lines 120-122. *)
Definition includedOf (changedFiles excludedFiles : list string) : list string :=
  filter (fun changed => negb (Js.arrayIncludes excludedFiles changed)) changedFiles.

(** Lines 116-143: what [strictify] does once the changed files are known. *)
Definition checkChangedFiles (options : TypeScriptOptions)
    (changedFiles excludedFiles : list string) : M StrictifyResult :=
  if Nat.eqb (List.length changedFiles) 0 then
    ret {| success := true; errors := 0 |}
  else
    let includedChangedFiles := includedOf changedFiles excludedFiles in
    tscOut <- getTypeScriptCompileOutput options ;;
    errorCount <- reduceM (checkFile tscOut) includedChangedFiles 0 ;;
    ret {| success := Nat.eqb errorCount 0; errors := errorCount |}.

(** Lines 87-144. *)
Definition strictify (args : Args) : M StrictifyResult :=
  commit <- findCommitAtWhichTheCurrentBranchForkedFromTargetBranch (targetBranch args) ;;
  emit (EvFoundSinceRevision commit) ;;;
  excludedFiles <- findExcludedFiles args ;;
  changedFiles <- findChangedFiles commit ;;
  emit (EvFoundChangedFiles changedFiles) ;;;
  checkChangedFiles (typeScriptOptions args) changedFiles excludedFiles.

End Program.

(** ** What the spec calls things *)

(** Follows the spec's words: "countFor(file, lines) = number of lines
    containing file as a substring". *)
Definition countFor (file : string) (lines : list string) : nat :=
  List.length (filter (fun line => Js.includes line file) lines).

(** Follows the spec's words: the file "has at least one matching diagnostic
    line". *)
Definition hasDiagnostics (file : string) (lines : list string) : bool :=
  existsb (fun line => Js.includes line file) lines.

(** Follows the spec's words: the sum over the included files of
    [countFor]. *)
Definition sumCounts (included lines : list string) : nat :=
  list_sum (map (fun file => countFor file lines) included).

(** ** The values a run computes, read off the world *)

Definition forkPoint (w : World) (branch targetBranch : string) : option string :=
  match execa w "git" (mergeBaseArgs branch targetBranch) with
  | Resolved stdout => Some stdout
  | Rejected _ => None
  end.

Definition workingTreeChanges (w : World) : list string :=
  match status w with
  | Some st => created st ++ modified st ++ not_added st
  | None => []
  end.

Definition diffFiles (w : World) (base : option string) (head : string) : list string :=
  match base with
  | None => []
  | Some b =>
      match diffSummary w b head with
      | Some summary => map file (files summary)
      | None => []
      end
  end.

Definition unfilteredChanges (w : World) (args : Args) : list string :=
  workingTreeChanges w ++ diffFiles w (forkPoint w "HEAD" (targetBranch args)) "HEAD".

Definition changeSet (w : World) (args : Args) : list string :=
  filter isSupportedExtension (Js.arrayFromSet (unfilteredChanges w args)).

Definition exclusionSet (w : World) (args : Args) : list string :=
  List.concat (map (fun branch => diffFiles w (forkPoint w branch (targetBranch args)) branch)
              (ignoreFilesChangedOnBranch args)).

Definition included (w : World) (args : Args) : list string :=
  includedOf (changeSet w args) (exclusionSet w args).

Definition compileOutput (w : World) (options : TypeScriptOptions) : Result (list string) :=
  match execa w "tsc" (compileArgs options) with
  | Resolved _ => Ok []
  | Rejected error =>
      match all error with
      | Some text => Ok (Js.split "010" text)
      | None => Throw (TypeError "Cannot read property 'split' of undefined")
      end
  end.

(** The result of line 140 for a total of [n] matches. *)
Definition verdict (n : nat) : StrictifyResult :=
  {| success := Nat.eqb n 0; errors := n |}.

Definition diagnosticLines (w : World) (options : TypeScriptOptions) : list string :=
  match compileOutput w options with
  | Ok lines => lines
  | Throw _ => []
  end.

(** The run gets past the fold of line 106, past the return of line 117 and
    past the compiler, whose output is [lines]. *)
Definition reachesCorrelation (w : World) (args : Args) (lines : list string) : Prop :=
  ignoreFilesChangedOnBranch args <> [] /\
  changeSet w args <> [] /\
  compileOutput w (typeScriptOptions args) = Ok lines.

(** What the [execa] the code is written for guarantees: the error of a
    rejected call always carries [all], a string (empty when nothing was
    captured).  The [catch] of line 54 relies on it. *)
Definition capturesOutput (w : World) : Prop :=
  forall file args error,
    execa w file args = Rejected error -> exists text, all error = Some text.

(** The lines of the compiler output that do not contain the path [file]. *)
Definition withoutLinesOf (file : string) (lines : list string) : list string :=
  filter (fun line => negb (Js.includes line file)) lines.

(** ** Reading a trace *)

Definition isQuery (ev : Event) : bool :=
  match ev with
  | EvExeca f _ => String.eqb f "git"
  | EvGitStatus | EvGitDiffSummary _ _ | EvConsoleWarn _ | EvConsoleError _ => true
  | _ => false
  end.

Definition isCompilerRun (ev : Event) : bool :=
  match ev with
  | EvExeca f _ => String.eqb f "tsc"
  | _ => false
  end.

Definition isDiffQuery (ev : Event) : bool :=
  match ev with
  | EvGitDiffSummary _ _ => true
  | _ => false
  end.

(** The [onCheckFile] calls of a trace, in order. *)
Fixpoint checkEvents (t : list Event) : list (string * bool) :=
  match t with
  | [] => []
  | EvCheckFile f b :: rest => (f, b) :: checkEvents rest
  | _ :: rest => checkEvents rest
  end.

(** The arguments of the [onFoundChangedFiles] calls of a trace. *)
Fixpoint foundChangedFiles (t : list Event) : list (list string) :=
  match t with
  | [] => []
  | EvFoundChangedFiles l :: rest => l :: foundChangedFiles rest
  | _ :: rest => foundChangedFiles rest
  end.

Definition compilerRuns (t : list Event) : nat :=
  List.length (filter isCompilerRun t).

(** ** A worked example

    The current branch forked from [master] at [abc123]; the branch [feature]
    forked at [def456] and changed [lib.ts].  The compiler reports two lines
    for [app.ts] and one for [lib.ts]. *)

Module Example.

Definition options : TypeScriptOptions :=
  {| noImplicitAny := true; noImplicitThis := true; alwaysStrict := true;
     strictBindCallApply := true; strictNullChecks := true;
     strictFunctionTypes := true; strictPropertyInitialization := true;
     noEmit := true |}.

Definition tscText : string :=
  Js.join "010"
    [ "src/app.ts(3,5): error TS2322: Type 'string' is not assignable to type 'number'.";
      "src/app.ts(9,1): error TS7006: Parameter 'x' implicitly has an 'any' type.";
      "src/lib.ts(1,1): error TS2304: Cannot find name 'foo'." ].

Definition git (args : list Arg) : ExecaResult :=
  match args with
  | [ArgStr _; ArgStr _; ArgStr _; ArgStr branch] =>
      if String.eqb branch "HEAD" then Resolved "abc123"
      else if String.eqb branch "feature" then Resolved "def456"
      else Rejected {| failure := ExitNonZero 1; all := Some "" |}
  | _ => Rejected {| failure := ExitNonZero 129; all := Some "" |}
  end.

Definition diffs (base head : string) : option DiffResult :=
  if String.eqb base "abc123" then
    Some {| files := [ {| file := "src/app.ts" |}; {| file := "src/lib.ts" |};
                       {| file := "src/view.tsx" |}; {| file := "package.json" |} ] |}
  else if String.eqb base "def456" then
    Some {| files := [ {| file := "src/lib.ts" |} ] |}
  else None.

Definition tree : StatusResult :=
  {| created := ["src/new.ts"]; modified := ["src/app.ts"; "README.md"]; not_added := [] |}.

Definition world : World :=
  {| execa := fun f a =>
       if String.eqb f "git" then git a
       else Rejected {| failure := ExitNonZero 2; all := Some tscText |};
     status := Some tree;
     diffSummary := diffs |}.

Definition args : Args :=
  {| typeScriptOptions := options; targetBranch := "master";
     ignoreFilesChangedOnBranch := ["feature"] |}.

(** The same call with no branch to ignore. *)
Definition argsNoIgnore : Args :=
  {| typeScriptOptions := options; targetBranch := "master";
     ignoreFilesChangedOnBranch := [] |}.

(** A checkout with nothing changed. *)
Definition cleanWorld : World :=
  {| execa := execa world;
     status := Some {| created := []; modified := []; not_added := [] |};
     diffSummary := fun _ _ => Some {| files := [] |} |}.

(** The project compiles without a diagnostic. *)
Definition passing : World :=
  {| execa := fun f a => if String.eqb f "git" then git a else Resolved "";
     status := status world;
     diffSummary := diffSummary world |}.

(** [tsc] is not installed: the spawn fails.  The error carries the empty
    output in the first world and no [all] at all in the second. *)
Definition absent (captured : option string) : World :=
  {| execa := fun f a =>
       if String.eqb f "git" then git a
       else Rejected {| failure := SpawnFailed "ENOENT"; all := captured |};
     status := status world;
     diffSummary := diffSummary world |}.

(** Only [src/lib.ts] changed, and [feature] changed it too. *)
Definition onlyLib (captured : option string) : World :=
  {| execa := execa (absent captured);
     status := Some {| created := []; modified := ["src/lib.ts"]; not_added := [] |};
     diffSummary := fun base head =>
       if String.eqb base "def456" then diffs base head else Some {| files := [] |} |}.

(** Two changed files, the path of one occurring in the path of the other;
    the compiler reports one line, for the longer path. *)
Definition nested : World :=
  {| execa := fun f a =>
       if String.eqb f "git" then git a
       else Rejected {| failure := ExitNonZero 2;
                        all := Some "lib/app.ts(1,1): error TS2304: Cannot find name 'foo'." |};
     status := Some {| created := []; modified := ["app.ts"; "lib/app.ts"];
                       not_added := [] |};
     diffSummary := fun _ _ => None |}.

(** [app.ts] and [lib/app.ts] changed; the branch [feature] changed
    [lib/app.ts], so it is excluded; the only line of the compiler is for
    [lib/app.ts]. *)
Definition shadowed : World :=
  {| execa := execa nested;
     status := status nested;
     diffSummary := fun base head =>
       if String.eqb base "def456" then Some {| files := [ {| file := "lib/app.ts" |} ] |}
       else None |}.

(** Not a git checkout: every query fails. *)
Definition silent : World :=
  {| execa := fun f a => Rejected {| failure := ExitNonZero 128; all := Some "" |};
     status := None;
     diffSummary := fun _ _ => None |}.

End Example.

(** ** Shapes of traces *)

(** A trace of queries to git only: no callback, no compiler run. *)
Definition quiet (t : list Event) : Prop := Forall (fun ev => isQuery ev = true) t.

(** A trace of the correlation stage: [onCheckFile] calls and printed lines. *)
Definition isReport (ev : Event) : bool :=
  match ev with
  | EvCheckFile _ _ | EvConsoleLog _ => true
  | _ => false
  end.

Definition reports (t : list Event) : Prop := Forall (fun ev => isReport ev = true) t.

(** [m] only queries git, and resolves to [a]. *)
Definition resolves {A} (m : M A) (a : A) : Prop :=
  exists q, quiet q /\ m = (q, Ok a).

(** ** More readers of a trace *)

Definition isGitRun (ev : Event) : bool :=
  match ev with
  | EvExeca f _ => String.eqb f "git"
  | _ => false
  end.

(** How many times [git] was spawned. *)
Definition gitRuns (t : list Event) : nat := List.length (filter isGitRun t).

(** The [diffSummary] queries of a trace, as (base, child), in order. *)
Fixpoint diffQueries (t : list Event) : list (string * string) :=
  match t with
  | [] => []
  | EvGitDiffSummary base child :: rest => (base, child) :: diffQueries rest
  | _ :: rest => diffQueries rest
  end.

(** The lines printed by [console.log], in order. *)
Fixpoint logged (t : list Event) : list string :=
  match t with
  | [] => []
  | EvConsoleLog line :: rest => line :: logged rest
  | _ :: rest => logged rest
  end.

(** The calls of the callbacks of [Args], in order. *)
Definition isCallback (ev : Event) : bool :=
  match ev with
  | EvFoundSinceRevision _ | EvFoundChangedFiles _ | EvCheckFile _ _ => true
  | _ => false
  end.

Definition callbacks (t : list Event) : list Event := filter isCallback t.

Definition checkFileEvent (call : string * bool) : Event :=
  EvCheckFile (fst call) (snd call).

(** The diff query made for [branch]: one when its fork point from [target]
    is known, none otherwise. *)
Definition diffQueryOf (w : World) (target branch : string) : list (string * string) :=
  match forkPoint w branch target with
  | Some base => [(base, branch)]
  | None => []
  end.

(** How often a character occurs in a string. *)
Fixpoint occurrences (c : ascii) (s : string) : nat :=
  match s with
  | EmptyString => 0
  | String d rest => (if Ascii.eqb d c then 1 else 0) + occurrences c rest
  end.

(** The arguments of a call with the branches [branches] to ignore. *)
Definition argsWith (options : TypeScriptOptions) (target : string)
    (branches : list string) : Args :=
  {| typeScriptOptions := options; targetBranch := target;
     ignoreFilesChangedOnBranch := branches |}.

(** ** Strings and arrays *)

Module JsFacts.

Lemma prefix_spec (sub s : string) :
  String.prefix sub s = true <-> exists q, s = (sub ++ q)%string.
Proof.
  revert s; induction sub as [|c sub IH]; intros s.
  - destruct s; simpl; (split; [intros _; eexists; reflexivity | reflexivity]).
  - destruct s as [|d s]; simpl.
    + split; [discriminate | intros [q Hq]; discriminate].
    + destruct (Ascii.ascii_dec c d) as [->|Hcd].
      * rewrite IH. split; intros [q Hq]; exists q; congruence.
      * split; [discriminate | intros [q Hq]; congruence].
Qed.

Lemma includes_spec (s sub : string) :
  Js.includes s sub = true <-> exists p q, s = (p ++ sub ++ q)%string.
Proof.
  induction s as [|c s IH]; cbn [Js.includes]; rewrite orb_true_iff, prefix_spec.
  - split.
    + intros [[q Hq]|H]; [|discriminate]. now exists "", q.
    + intros [p [q H]]. left. destruct p; simpl in H; [now exists q | discriminate].
  - rewrite IH. split.
    + intros [[q Hq]|[p [q H]]]; [now exists "", q|].
      exists (String c p), q. simpl. now rewrite H.
    + intros [p [q H]]. destruct p as [|d p]; simpl in H.
      * left. now exists q.
      * right. exists p, q. congruence.
Qed.

Lemma split_not_nil (sep : ascii) (s : string) : Js.split sep s <> [].
Proof.
  induction s as [|c s IH]; simpl; [discriminate|].
  destruct (Ascii.eqb c sep); [discriminate|].
  destruct (Js.split sep s); discriminate.
Qed.

Lemma join_split (sep : ascii) (s : string) : Js.join sep (Js.split sep s) = s.
Proof.
  induction s as [|c s IH]; [reflexivity|]. simpl.
  pose proof (split_not_nil sep s) as N.
  destruct (Js.split sep s) as [|x l]; [congruence|].
  rewrite <- IH. clear IH N.
  destruct (Ascii.eqb c sep) eqn:E.
  - apply Ascii.eqb_eq in E; subst c. reflexivity.
  - destruct l; reflexivity.
Qed.

Lemma arrayIncludes_In (arr : list string) (x : string) :
  Js.arrayIncludes arr x = true <-> In x arr.
Proof.
  unfold Js.arrayIncludes. rewrite existsb_exists. split.
  - intros [y [Hy E]]. apply String.eqb_eq in E. now subst.
  - intros H. exists x. split; [assumption | apply String.eqb_refl].
Qed.

Lemma arrayIncludes_false (arr : list string) (x : string) :
  Js.arrayIncludes arr x = false <-> ~ In x arr.
Proof.
  rewrite <- arrayIncludes_In. destruct (Js.arrayIncludes arr x); split; congruence.
Qed.

Lemma setAdd_In (set : list string) (x y : string) :
  In y (Js.setAdd set x) <-> In y set \/ y = x.
Proof.
  unfold Js.setAdd. destruct (Js.arrayIncludes set x) eqn:E.
  - apply arrayIncludes_In in E. split; [now left | intros [H | ->]; assumption].
  - rewrite in_app_iff. simpl. intuition congruence.
Qed.

Lemma setAdd_NoDup (set : list string) (x : string) :
  NoDup set -> NoDup (Js.setAdd set x).
Proof.
  intros H. unfold Js.setAdd. destruct (Js.arrayIncludes set x) eqn:E; [assumption|].
  apply arrayIncludes_false in E.
  apply NoDup_app; [assumption | repeat constructor; simpl; tauto |].
  intros a Ha [<-|[]]. contradiction.
Qed.

Lemma fold_setAdd (arr set : list string) :
  NoDup set ->
  NoDup (fold_left Js.setAdd arr set) /\
  (forall y, In y (fold_left Js.setAdd arr set) <-> In y set \/ In y arr).
Proof.
  revert set; induction arr as [|x arr IH]; intros set H; simpl.
  - split; [assumption | intros y; tauto].
  - destruct (IH (Js.setAdd set x) (setAdd_NoDup x H)) as [N I].
    split; [assumption|]. intros y. rewrite I, setAdd_In. intuition congruence.
Qed.

Lemma arrayFromSet_NoDup (arr : list string) : NoDup (Js.arrayFromSet arr).
Proof. apply (fold_setAdd arr (NoDup_nil string)). Qed.

Lemma arrayFromSet_In (arr : list string) (y : string) :
  In y (Js.arrayFromSet arr) <-> In y arr.
Proof.
  unfold Js.arrayFromSet.
  destruct (fold_setAdd arr (NoDup_nil string)) as [_ I]. rewrite I. simpl. tauto.
Qed.

End JsFacts.

(** ** Facts about traces *)

Lemma checkEvents_app (t u : list Event) :
  checkEvents (t ++ u) = checkEvents t ++ checkEvents u.
Proof.
  induction t as [|ev t IH]; [reflexivity|].
  destruct ev; simpl; now rewrite ?IH.
Qed.

Lemma foundChangedFiles_app (t u : list Event) :
  foundChangedFiles (t ++ u) = foundChangedFiles t ++ foundChangedFiles u.
Proof.
  induction t as [|ev t IH]; [reflexivity|].
  destruct ev; simpl; now rewrite ?IH.
Qed.

Lemma compilerRuns_app (t u : list Event) :
  compilerRuns (t ++ u) = compilerRuns t + compilerRuns u.
Proof. unfold compilerRuns. now rewrite filter_app, length_app. Qed.

Lemma In_checkEvents (t : list Event) (f : string) (b : bool) :
  In (EvCheckFile f b) t <-> In (f, b) (checkEvents t).
Proof.
  induction t as [|ev t IH]; [reflexivity|].
  destruct ev; simpl; rewrite <- IH;
    try (split; [intros [H|H]; [discriminate | assumption] | now right]).
  split; (intros [H|H]; [left; congruence | now right]).
Qed.

Lemma In_foundChangedFiles (t : list Event) (l : list string) :
  In (EvFoundChangedFiles l) t <-> In l (foundChangedFiles t).
Proof.
  induction t as [|ev t IH]; [reflexivity|].
  destruct ev; simpl; rewrite <- IH;
    try (split; [intros [H|H]; [discriminate | assumption] | now right]).
  split; (intros [H|H]; [left; congruence | now right]).
Qed.

Lemma quiet_app (t u : list Event) : quiet t -> quiet u -> quiet (t ++ u).
Proof. intros; now apply Forall_app. Qed.

Lemma quiet_silent (t : list Event) :
  quiet t -> checkEvents t = [] /\ foundChangedFiles t = [] /\ compilerRuns t = 0.
Proof.
  unfold compilerRuns.
  induction 1 as [|ev t H _ (IH1 & IH2 & IH3)]; [now repeat split|].
  destruct ev; simpl in *; try discriminate; auto.
  apply String.eqb_eq in H; subst. simpl. auto.
Qed.

Lemma reports_app (t u : list Event) : reports t -> reports u -> reports (t ++ u).
Proof. intros; now apply Forall_app. Qed.

Lemma reports_silent (t : list Event) :
  reports t -> foundChangedFiles t = [] /\ compilerRuns t = 0.
Proof.
  unfold compilerRuns.
  induction 1 as [|ev t H _ (IH1 & IH2)]; [now repeat split|].
  destruct ev; simpl in *; try discriminate; auto.
Qed.

Lemma prelude_silent (q1 q2 tail : list Event) (commit : option string)
    (changedFiles : list string) :
  quiet q1 -> quiet q2 ->
  let t := q1 ++ EvFoundSinceRevision commit
              :: q2 ++ EvFoundChangedFiles changedFiles :: tail in
  foundChangedFiles t = changedFiles :: foundChangedFiles tail /\
  compilerRuns t = compilerRuns tail /\
  checkEvents t = checkEvents tail.
Proof.
  intros Q1 Q2 t. subst t.
  destruct (quiet_silent Q1) as (C1 & F1 & R1).
  destruct (quiet_silent Q2) as (C2 & F2 & R2).
  repeat split.
  - rewrite foundChangedFiles_app, F1. cbn.
    now rewrite foundChangedFiles_app, F2.
  - rewrite compilerRuns_app, R1.
    change (EvFoundSinceRevision commit :: ?l) with ([EvFoundSinceRevision commit] ++ l).
    rewrite !compilerRuns_app, R2. reflexivity.
  - rewrite checkEvents_app, C1. cbn.
    now rewrite checkEvents_app, C2.
Qed.

(** ** The monad *)

Lemma bind_Ok {A B} (t : list Event) (a : A) (k : A -> M B) :
  bind (t, Ok a) k = (t ++ trace (k a), outcome (k a)).
Proof. unfold bind, trace, outcome. now destruct (k a). Qed.

Lemma bind_emit {B} (ev : Event) (k : unit -> M B) :
  bind (emit ev) k = (ev :: trace (k tt), outcome (k tt)).
Proof. unfold emit. now rewrite bind_Ok. Qed.

Lemma resolves_ret {A} (a : A) : resolves (ret a) a.
Proof. exists []. split; [constructor | reflexivity]. Qed.

Lemma resolves_bind {A B} (m : M A) (k : A -> M B) (a : A) (b : B) :
  resolves m a -> resolves (k a) b -> resolves (bind m k) b.
Proof.
  intros [q [Hq ->]] [q' [Hq' E]]. exists (q ++ q'). split; [now apply quiet_app|].
  rewrite bind_Ok, E. reflexivity.
Qed.

Lemma resolves_promiseAllMap {A B} (f : A -> M B) (g : A -> B) (arr : list A) :
  (forall x, resolves (f x) (g x)) -> resolves (promiseAllMap f arr) (map g arr).
Proof.
  intros H. induction arr as [|x arr IH]; simpl; [apply resolves_ret|].
  eapply resolves_bind; [apply H|].
  eapply resolves_bind; [apply IH|]. apply resolves_ret.
Qed.

Lemma fold_left_app_concat {A} (l : list (list A)) (init : list A) :
  fold_left (fun accumulator currentValue => accumulator ++ currentValue) l init
  = init ++ List.concat l.
Proof.
  revert init; induction l as [|x l IH]; intros init; simpl.
  - now rewrite app_nil_r.
  - now rewrite IH, app_assoc.
Qed.

Lemma fold_left_snoc_map {A B} (f : A -> B) (l : list A) (init : list B) :
  fold_left (fun result x => result ++ [f x]) l init = init ++ map f l.
Proof.
  revert init; induction l as [|x l IH]; intros init; simpl.
  - now rewrite app_nil_r.
  - now rewrite IH, <- app_assoc.
Qed.

(** ** The queries *)

Section Queries.

Variable w : World.

Lemma findCommit_run (branch targetBranch : string) :
  findCommitAtWhichBranchForkedFromTargetBranch w branch targetBranch
  = ([EvExeca "git" (mergeBaseArgs branch targetBranch)],
     Ok (forkPoint w branch targetBranch)).
Proof.
  unfold findCommitAtWhichBranchForkedFromTargetBranch, forkPoint.
  now destruct (execa w "git" (mergeBaseArgs branch targetBranch)).
Qed.

Lemma findCommit_resolves (branch targetBranch : string) :
  resolves (findCommitAtWhichBranchForkedFromTargetBranch w branch targetBranch)
           (forkPoint w branch targetBranch).
Proof.
  rewrite findCommit_run. eexists. split; [|reflexivity]. now repeat constructor.
Qed.

Lemma findModified_resolves :
  resolves (findModifiedAndUntrackedFiles w) (workingTreeChanges w).
Proof.
  unfold findModifiedAndUntrackedFiles, workingTreeChanges.
  destruct (status w); eexists; (split; [|reflexivity]); now repeat constructor.
Qed.

Lemma findFiles_resolves (base : option string) (head : string) :
  resolves (findFilesFromDiffToRevision w base head) (diffFiles w base head).
Proof.
  unfold findFilesFromDiffToRevision, diffFiles.
  destruct base as [b|]; [|apply resolves_ret].
  destruct (diffSummary w b head) as [summary|].
  - rewrite fold_left_snoc_map. simpl.
    eexists; (split; [|reflexivity]); now repeat constructor.
  - eexists; (split; [|reflexivity]); now repeat constructor.
Qed.

Lemma findChangedFiles_resolves (commit : option string) :
  resolves (findChangedFiles w commit)
    (filter isSupportedExtension
       (Js.arrayFromSet (workingTreeChanges w ++ diffFiles w commit "HEAD"))).
Proof.
  unfold findChangedFiles.
  eapply resolves_bind; [apply findModified_resolves|].
  eapply resolves_bind; [apply findFiles_resolves|]. apply resolves_ret.
Qed.

Lemma perBranch_resolves (targetBranch : string) (branches : list string) :
  resolves
    (promiseAllMap
       (fun branchWithChangesToIgnore =>
          baseCommit <- findCommitAtWhichBranchForkedFromTargetBranch w
                          branchWithChangesToIgnore targetBranch ;;
          findFilesFromDiffToRevision w baseCommit branchWithChangesToIgnore)
       branches)
    (map (fun branch => diffFiles w (forkPoint w branch targetBranch) branch) branches).
Proof.
  apply resolves_promiseAllMap with
    (g := fun branch => diffFiles w (forkPoint w branch targetBranch) branch).
  intros branch.
  eapply resolves_bind; [apply findCommit_resolves | apply findFiles_resolves].
Qed.

Lemma findExcludedFiles_empty (args : Args) :
  ignoreFilesChangedOnBranch args = [] ->
  findExcludedFiles w args
  = ([], Throw (TypeError "Reduce of empty array with no initial value")).
Proof. unfold findExcludedFiles. now intros ->. Qed.

Lemma findExcludedFiles_resolves (args : Args) :
  ignoreFilesChangedOnBranch args <> [] ->
  resolves (findExcludedFiles w args) (exclusionSet w args).
Proof.
  intros N. unfold findExcludedFiles, exclusionSet.
  eapply resolves_bind; [apply perBranch_resolves|].
  destruct (ignoreFilesChangedOnBranch args) as [|b bs]; [congruence|].
  simpl. rewrite fold_left_app_concat. apply resolves_ret.
Qed.

Lemma getTypeScriptCompileOutput_run (options : TypeScriptOptions) :
  getTypeScriptCompileOutput w options
  = ([EvExeca "tsc" (compileArgs options)], compileOutput w options).
Proof.
  unfold getTypeScriptCompileOutput, compileOutput.
  destruct (execa w "tsc" (compileArgs options)) as [out|error]; [reflexivity|].
  now destruct (all error).
Qed.

End Queries.

(** ** The correlation stage *)

Lemma countFor_cons (file line : string) (lines : list string) :
  countFor file (line :: lines)
  = (if Js.includes line file then 1 else 0) + countFor file lines.
Proof. unfold countFor. simpl. now destruct (Js.includes line file). Qed.

Lemma scanLines_run (fileName : string) (tscOut : list string)
    (totalErrorCount errorCount : nat) :
  exists t,
    scanLines fileName tscOut totalErrorCount errorCount
    = (t, Ok (totalErrorCount + countFor fileName tscOut,
              errorCount + countFor fileName tscOut)) /\
    reports t /\
    checkEvents t
    = if Nat.eqb errorCount 0 && negb (Nat.eqb (countFor fileName tscOut) 0)
      then [(fileName, true)] else [].
Proof.
  revert totalErrorCount errorCount.
  induction tscOut as [|line rest IH]; intros total count.
  - exists []. cbn. rewrite !Nat.add_0_r, andb_false_r. repeat split. constructor.
  - rewrite countFor_cons. cbn [scanLines].
    destruct (Js.includes line fileName).
    + destruct (IH (S total) (S count)) as (t & E & R & C).
      rewrite E. replace (Nat.eqb (1 + countFor fileName rest) 0) with false by reflexivity.
      rewrite andb_true_r.
      destruct (Nat.eqb count 0) eqn:Z.
      * exists (EvCheckFile fileName true :: EvConsoleLog line :: t).
        cbn. rewrite C. repeat split.
        -- do 3 f_equal; lia.
        -- now repeat constructor.
      * exists (EvConsoleLog line :: t). cbn. rewrite C. repeat split.
        -- do 3 f_equal; lia.
        -- now repeat constructor.
    + destruct (IH total count) as (t & E & R & C). exists t. now repeat split.
Qed.

Lemma checkFile_run (tscOut : list string) (totalErrorCount : nat) (fileName : string) :
  exists t,
    checkFile tscOut totalErrorCount fileName
    = (t, Ok (totalErrorCount + countFor fileName tscOut)) /\
    reports t /\
    checkEvents t = [(fileName, negb (Nat.eqb (countFor fileName tscOut) 0))].
Proof.
  unfold checkFile.
  destruct (scanLines_run fileName tscOut totalErrorCount 0) as (t & E & R & C).
  rewrite E, bind_Ok. cbn [Nat.add Nat.eqb andb fst snd] in *.
  destruct (Nat.eqb (countFor fileName tscOut) 0) eqn:Z; cbn in *.
  - exists (t ++ [EvCheckFile fileName false]). split; [reflexivity|]. split.
    + apply reports_app; [assumption | now repeat constructor].
    + now rewrite checkEvents_app, C.
  - exists (t ++ []). split; [reflexivity|]. split.
    + apply reports_app; [assumption | constructor].
    + now rewrite app_nil_r.
Qed.

Lemma correlate_run (tscOut includedChangedFiles : list string) (init : nat) :
  exists t,
    reduceM (checkFile tscOut) includedChangedFiles init
    = (t, Ok (init + sumCounts includedChangedFiles tscOut)) /\
    reports t /\
    checkEvents t
    = map (fun file => (file, negb (Nat.eqb (countFor file tscOut) 0)))
          includedChangedFiles.
Proof.
  revert init. induction includedChangedFiles as [|f rest IH]; intros init.
  - exists []. cbn. rewrite Nat.add_0_r. repeat split. constructor.
  - cbn [reduceM]. destruct (checkFile_run tscOut init f) as (t & E & R & C).
    destruct (IH (init + countFor f tscOut)) as (t' & E' & R' & C').
    exists (t ++ t'). rewrite E, bind_Ok, E'. split; [|split].
    + unfold sumCounts, trace, outcome. cbn. do 2 f_equal.
      symmetry. apply Nat.add_assoc.
    + now apply reports_app.
    + now rewrite checkEvents_app, C, C'.
Qed.

Lemma hasDiagnostics_countFor (file : string) (lines : list string) :
  negb (Nat.eqb (countFor file lines) 0) = hasDiagnostics file lines.
Proof.
  induction lines as [|line rest IH]; [reflexivity|].
  rewrite countFor_cons. simpl. destruct (Js.includes line file); [reflexivity|].
  exact IH.
Qed.

(** ** The whole run *)

Section Run.

Variable w : World.

Lemma checkChangedFiles_empty (options : TypeScriptOptions) (excludedFiles : list string) :
  checkChangedFiles w options [] excludedFiles
  = ([], Ok {| success := true; errors := 0 |}).
Proof. reflexivity. Qed.

Lemma checkChangedFiles_compiles (options : TypeScriptOptions)
    (changedFiles excludedFiles : list string) :
  changedFiles <> [] ->
  exists t,
    reports t /\
    trace (checkChangedFiles w options changedFiles excludedFiles)
    = EvExeca "tsc" (compileArgs options) :: t /\
    match compileOutput w options with
    | Ok lines =>
        outcome (checkChangedFiles w options changedFiles excludedFiles)
        = Ok (verdict (sumCounts (includedOf changedFiles excludedFiles) lines)) /\
        checkEvents t
        = map (fun file => (file, hasDiagnostics file lines))
              (includedOf changedFiles excludedFiles)
    | Throw e =>
        outcome (checkChangedFiles w options changedFiles excludedFiles) = Throw e /\
        t = []
    end.
Proof.
  intros N. unfold checkChangedFiles.
  destruct changedFiles as [|c cs]; [congruence|]. cbn [List.length Nat.eqb].
  rewrite getTypeScriptCompileOutput_run.
  destruct (compileOutput w options) as [lines|e].
  - destruct (correlate_run lines (includedOf (c :: cs) excludedFiles) 0)
      as (t & E & R & C).
    exists t. rewrite bind_Ok, E, bind_Ok. cbn [trace outcome fst snd ret app Nat.add].
    rewrite app_nil_r. repeat split; try assumption.
    rewrite C. apply map_ext. intros f. now rewrite hasDiagnostics_countFor.
  - exists []. repeat split. constructor.
Qed.

Lemma strictify_empty_ignore (args : Args) :
  ignoreFilesChangedOnBranch args = [] ->
  strictify w args
  = ([EvExeca "git" (mergeBaseArgs "HEAD" (targetBranch args));
      EvFoundSinceRevision (forkPoint w "HEAD" (targetBranch args))],
     Throw (TypeError "Reduce of empty array with no initial value")).
Proof.
  intros E. unfold strictify, findCommitAtWhichTheCurrentBranchForkedFromTargetBranch.
  rewrite findCommit_run, bind_Ok, bind_emit.
  now rewrite (findExcludedFiles_empty w args E).
Qed.

Lemma strictify_proceeds (args : Args) :
  ignoreFilesChangedOnBranch args <> [] ->
  exists q1 q2,
    quiet q1 /\ quiet q2 /\
    strictify w args
    = (q1 ++ EvFoundSinceRevision (forkPoint w "HEAD" (targetBranch args))
          :: q2 ++ EvFoundChangedFiles (changeSet w args)
          :: trace (checkChangedFiles w (typeScriptOptions args)
                      (changeSet w args) (exclusionSet w args)),
       outcome (checkChangedFiles w (typeScriptOptions args)
                  (changeSet w args) (exclusionSet w args))).
Proof.
  intros N. unfold strictify, findCommitAtWhichTheCurrentBranchForkedFromTargetBranch.
  rewrite findCommit_run.
  destruct (findExcludedFiles_resolves w args N) as (qe & Qe & Ee).
  destruct (findChangedFiles_resolves w (forkPoint w "HEAD" (targetBranch args)))
    as (qc & Qc & Ec).
  fold (unfilteredChanges w args) in Ec. fold (changeSet w args) in Ec.
  exists [EvExeca "git" (mergeBaseArgs "HEAD" (targetBranch args))], (qe ++ qc).
  split; [now repeat constructor|]. split; [now apply quiet_app|].
  rewrite bind_Ok, bind_emit, Ee, bind_Ok, Ec, bind_Ok, bind_emit.
  cbn [trace outcome fst snd app]. now rewrite <- app_assoc.
Qed.

(** Every run, by cases: what was reported, how often the compiler ran and
    how the run ended. *)
Lemma strictify_summary (args : Args) :
  let t := trace (strictify w args) in
  let r := outcome (strictify w args) in
  match ignoreFilesChangedOnBranch args with
  | [] =>
      foundChangedFiles t = [] /\ compilerRuns t = 0 /\ checkEvents t = [] /\
      r = Throw (TypeError "Reduce of empty array with no initial value")
  | _ :: _ =>
      foundChangedFiles t = [changeSet w args] /\
      match changeSet w args with
      | [] =>
          compilerRuns t = 0 /\ checkEvents t = [] /\
          r = Ok {| success := true; errors := 0 |}
      | _ :: _ =>
          compilerRuns t = 1 /\
          match compileOutput w (typeScriptOptions args) with
          | Ok lines =>
              checkEvents t
              = map (fun file => (file, hasDiagnostics file lines)) (included w args) /\
              r = Ok (verdict (sumCounts (included w args) lines))
          | Throw e => checkEvents t = [] /\ r = Throw e
          end
      end
  end.
Proof.
  cbv zeta.
  destruct (ignoreFilesChangedOnBranch args) as [|b bs] eqn:I.
  - rewrite (strictify_empty_ignore args I). cbn. auto.
  - assert (N : ignoreFilesChangedOnBranch args <> []) by congruence.
    destruct (strictify_proceeds args N) as (q1 & q2 & Q1 & Q2 & E).
    rewrite E. clear E. cbn [trace outcome fst snd].
    destruct (prelude_silent
                (trace (checkChangedFiles w (typeScriptOptions args)
                          (changeSet w args) (exclusionSet w args)))
                (forkPoint w "HEAD" (targetBranch args)) (changeSet w args) Q1 Q2)
      as (F & R & C).
    rewrite F, R, C. clear F R C. unfold included.
    destruct (changeSet w args) as [|c cs] eqn:CS.
    + rewrite checkChangedFiles_empty. cbn. auto.
    + destruct (checkChangedFiles_compiles (typeScriptOptions args)
                  (exclusionSet w args) (changedFiles := c :: cs))
        as (t & R & T & O); [congruence|].
      rewrite T. destruct (reports_silent R) as (FR & RR).
      change (EvExeca "tsc" ?a :: t) with ([EvExeca "tsc" a] ++ t).
      rewrite foundChangedFiles_app, compilerRuns_app, checkEvents_app.
      rewrite FR, RR. cbn [foundChangedFiles checkEvents app].
      split; [reflexivity|]. split; [reflexivity|].
      destruct (compileOutput w (typeScriptOptions args)) as [lines|e].
      * destruct O as [O C]. now rewrite C.
      * destruct O as [O ->]. auto.
Qed.

End Run.

(** ** The sets of a run *)

Lemma matchHere_spec (s : string) :
  matchHere s = true <-> s = ".ts" \/ s = ".tsx".
Proof. unfold matchHere. now rewrite orb_true_iff, !String.eqb_eq. Qed.

Lemma isSupportedExtension_spec (fileName : string) :
  isSupportedExtension fileName = true <->
  exists stem, fileName = (stem ++ ".ts")%string \/ fileName = (stem ++ ".tsx")%string.
Proof.
  induction fileName as [|c rest IH]; cbn [isSupportedExtension];
    rewrite orb_true_iff, matchHere_spec.
  - split.
    + intros [[H|H]|H]; discriminate.
    + intros [stem [H|H]]; destruct stem; discriminate.
  - rewrite IH. split.
    + intros [H|[stem H]].
      * exists "". exact H.
      * exists (String c stem). cbn. destruct H as [-> | ->]; auto.
    + intros [stem H]. destruct stem as [|d stem].
      * left. exact H.
      * right. exists stem. cbn in H. destruct H as [H|H]; injection H; auto.
Qed.

Lemma includedOf_In (changedFiles excludedFiles : list string) (f : string) :
  In f (includedOf changedFiles excludedFiles)
  <-> In f changedFiles /\ ~ In f excludedFiles.
Proof.
  unfold includedOf. rewrite filter_In, negb_true_iff.
  now rewrite JsFacts.arrayIncludes_false.
Qed.

Lemma changeSet_NoDup (w : World) (args : Args) : NoDup (changeSet w args).
Proof. apply NoDup_filter, JsFacts.arrayFromSet_NoDup. Qed.

Lemma included_NoDup (w : World) (args : Args) : NoDup (included w args).
Proof. apply NoDup_filter, changeSet_NoDup. Qed.

Lemma included_nil_iff (w : World) (args : Args) :
  included w args = [] <->
  forall f, In f (changeSet w args) -> In f (exclusionSet w args).
Proof.
  split.
  - intros E f H.
    destruct (in_dec String.string_dec f (exclusionSet w args)) as [I|I]; [assumption|].
    assert (X : In f (included w args)) by (apply includedOf_In; auto).
    rewrite E in X. destruct X.
  - intros H. destruct (included w args) as [|f l] eqn:E; [reflexivity|].
    assert (X : In f (included w args)) by (rewrite E; now left).
    apply includedOf_In in X. destruct X as [X Y]. destruct (Y (H f X)).
Qed.

Lemma filter_by_key {B} (g : string -> B) (l : list string) (f : string) :
  NoDup l -> In f l ->
  filter (fun ev => String.eqb (fst ev) f) (map (fun x => (x, g x)) l) = [(f, g f)].
Proof.
  induction 1 as [|x l Hx N IH]; intros I; [destruct I|]. cbn.
  destruct (String.eqb x f) eqn:E.
  - apply String.eqb_eq in E; subst x. f_equal.
    clear IH I. induction l as [|y l IHl]; [reflexivity|]. cbn.
    destruct (String.eqb y f) eqn:E.
    + apply String.eqb_eq in E; subst y. destruct Hx. now left.
    + apply IHl; [intros H; apply Hx; now right | now inversion N].
  - destruct I as [->|I]; [now rewrite String.eqb_refl in E | now apply IH].
Qed.

Lemma countFor_relevant (P : string -> bool) (file : string) (lines : list string) :
  (forall line, Js.includes line file = true -> P line = true) ->
  countFor file (filter P lines) = countFor file lines.
Proof.
  intros H. induction lines as [|line rest IH]; [reflexivity|]. cbn [filter].
  destruct (P line) eqn:E.
  - now rewrite !countFor_cons, IH.
  - rewrite countFor_cons, IH.
    destruct (Js.includes line file) eqn:I; [|reflexivity].
    rewrite (H line I) in E. discriminate.
Qed.

Lemma sumCounts_relevant (files lines : list string) :
  sumCounts files (filter (fun line => existsb (Js.includes line) files) lines)
  = sumCounts files lines.
Proof.
  unfold sumCounts. f_equal. apply map_ext_in. intros f I.
  apply countFor_relevant. intros line H. apply existsb_exists. now exists f.
Qed.

Lemma sumCounts_nil (files : list string) : sumCounts files [] = 0.
Proof.
  unfold sumCounts. induction files as [|f files IH]; [reflexivity|].
  cbn [map]. change (list_sum (?x :: ?l)) with (x + list_sum l). now rewrite IH.
Qed.

Lemma sumCounts_cons (files : list string) (line : string) (lines : list string) :
  sumCounts files (line :: lines)
  = List.length (filter (Js.includes line) files) + sumCounts files lines.
Proof.
  unfold sumCounts. induction files as [|f files IH]; [reflexivity|].
  cbn [map filter]. change (list_sum (?x :: ?l)) with (x + list_sum l).
  rewrite IH, countFor_cons. destruct (Js.includes line f); cbn [List.length]; lia.
Qed.

Lemma sumCounts_by_line (files lines : list string) :
  sumCounts files lines
  = list_sum (map (fun line => List.length (filter (Js.includes line) files)) lines).
Proof.
  induction lines as [|line lines IH]; [apply sumCounts_nil|].
  rewrite sumCounts_cons, IH. reflexivity.
Qed.

Lemma sumCounts_without (files : list string) (g : string) (lines : list string) :
  (forall line, In line lines -> Js.includes line g = true ->
                forall f, In f files -> Js.includes line f = false) ->
  sumCounts files (withoutLinesOf g lines) = sumCounts files lines.
Proof.
  intros H. unfold withoutLinesOf.
  induction lines as [|line lines IH]; [reflexivity|]. cbn [filter].
  assert (H' : forall l, In l lines -> Js.includes l g = true ->
                         forall f, In f files -> Js.includes l f = false)
    by (intros l Hl; apply H; now right).
  destruct (Js.includes line g) eqn:G; cbn [negb].
  - rewrite (IH H'), sumCounts_cons.
    assert (Z : filter (Js.includes line) files = []).
    { specialize (H line (or_introl eq_refl) G). clear -H.
      induction files as [|f files IHf]; [reflexivity|]. cbn [filter].
      rewrite (H f (or_introl eq_refl)). apply IHf. intros x Hx. apply H. now right. }
    now rewrite Z.
  - now rewrite !sumCounts_cons, (IH H').
Qed.

(** When every changed file is excluded: one compiler run, no notification,
    and the run ends as the compiler step ends. *)
Lemma all_excluded_run (w : World) (args : Args) :
  changeSet w args <> [] ->
  (forall f, In f (changeSet w args) -> In f (exclusionSet w args)) ->
  compilerRuns (trace (strictify w args)) = 1 /\
  checkEvents (trace (strictify w args)) = [] /\
  match compileOutput w (typeScriptOptions args) with
  | Ok _ => outcome (strictify w args) = Ok {| success := true; errors := 0 |}
  | Throw e => outcome (strictify w args) = Throw e
  end.
Proof.
  intros C A.
  assert (N : ignoreFilesChangedOnBranch args <> []).
  { intros E. destruct (changeSet w args) as [|f l] eqn:CS; [congruence|].
    specialize (A f (or_introl eq_refl)). unfold exclusionSet in A.
    rewrite E in A. destruct A. }
  apply included_nil_iff in A.
  pose proof (strictify_summary w args) as S. cbv zeta in S.
  destruct (ignoreFilesChangedOnBranch args); [congruence|].
  destruct S as [_ S]. destruct (changeSet w args); [congruence|].
  destruct S as [R S]. split; [exact R|]. rewrite A in S.
  destruct (compileOutput w (typeScriptOptions args)); destruct S as [S O]; auto.
Qed.

(** With a branch to ignore, an empty change set ends the run at once. *)
Lemma short_circuit (w : World) (args : Args) :
  ignoreFilesChangedOnBranch args <> [] ->
  changeSet w args = [] ->
  outcome (strictify w args) = Ok {| success := true; errors := 0 |} /\
  compilerRuns (trace (strictify w args)) = 0 /\
  checkEvents (trace (strictify w args)) = [].
Proof.
  intros N E. pose proof (strictify_summary w args) as S. cbv zeta in S.
  destruct (ignoreFilesChangedOnBranch args); [congruence|].
  rewrite E in S. tauto.
Qed.

(** ** The exclusion set (lines 100-108) *)

(** C1 (the code departs from the claim): with an empty list of branches to
    ignore the fold of line 106 has no element to start from, so every such
    run throws a [TypeError], after [onFoundSinceRevision] and before any
    change set is computed; no exclusion set, empty or not, is produced. *)
Theorem C1_empty_ignore_list_throws (w : World) (options : TypeScriptOptions)
    (target : string) :
  let args := {| typeScriptOptions := options; targetBranch := target;
                 ignoreFilesChangedOnBranch := [] |} in
  findExcludedFiles w args
  = ([], Throw (TypeError "Reduce of empty array with no initial value")) /\
  outcome (strictify w args)
  = Throw (TypeError "Reduce of empty array with no initial value") /\
  foundChangedFiles (trace (strictify w args)) = [].
Proof.
  intros args. split; [reflexivity|].
  now rewrite (strictify_empty_ignore w args eq_refl).
Qed.

(** ** The compiler run (lines 46-59) *)

(** C2, as amended: a compiler that ends normally gives no diagnostic line;
    when the invocation is rejected and the error carries the captured output,
    that text cut at the newlines is the diagnostic sequence, whatever made
    the invocation fail; when the error carries no captured output the step
    throws, and a run that invoked the compiler throws with it, returning
    nothing. *)
Theorem C2_compiler_outcomes (w : World) (options : TypeScriptOptions) :
  (forall out,
      execa w "tsc" (compileArgs options) = Resolved out ->
      outcome (getTypeScriptCompileOutput w options) = Ok []) /\
  (forall error text,
      execa w "tsc" (compileArgs options) = Rejected error ->
      all error = Some text ->
      outcome (getTypeScriptCompileOutput w options) = Ok (Js.split "010" text) /\
      Js.join "010" (Js.split "010" text) = text) /\
  (forall error,
      execa w "tsc" (compileArgs options) = Rejected error ->
      all error = None ->
      exists e,
        outcome (getTypeScriptCompileOutput w options) = Throw e /\
        forall args,
          typeScriptOptions args = options ->
          0 < compilerRuns (trace (strictify w args)) ->
          outcome (strictify w args) = Throw e).
Proof.
  rewrite getTypeScriptCompileOutput_run. cbn [outcome snd]. unfold compileOutput.
  split; [|split].
  - now intros out ->.
  - intros error text -> ->. split; [reflexivity | apply JsFacts.join_split].
  - intros error E A. eexists. split; [now rewrite E, A|].
    intros args <- R. pose proof (strictify_summary w args) as S. cbv zeta in S.
    destruct (ignoreFilesChangedOnBranch args); [lia|].
    destruct S as [_ S]. destruct (changeSet w args); [lia|].
    destruct S as [_ S]. unfold compileOutput in S. rewrite E, A in S. tauto.
Qed.

Lemma C2_compiler_outcomes_witness :
  outcome (getTypeScriptCompileOutput Example.passing Example.options) = Ok [] /\
  outcome (getTypeScriptCompileOutput Example.world Example.options)
  = Ok (Js.split "010" Example.tscText) /\
  outcome (strictify (Example.absent None) Example.args)
  = Throw (TypeError "Cannot read property 'split' of undefined").
Proof.
  split; [|split].
  - apply (proj1 (C2_compiler_outcomes Example.passing Example.options) "").
    reflexivity.
  - apply (proj1 (proj2 (C2_compiler_outcomes Example.world Example.options))
             {| failure := ExitNonZero 2; all := Some Example.tscText |}
             Example.tscText); reflexivity.
  - destruct (proj2 (proj2 (C2_compiler_outcomes (Example.absent None) Example.options))
                {| failure := SpawnFailed "ENOENT"; all := None |}
                eq_refl eq_refl) as [e [T S]].
    rewrite (S Example.args eq_refl); [|vm_compute; lia].
    vm_compute in T. injection T as T. now rewrite <- T.
Defined.

(** C2 as the claim has it fails: the compiler binary is absent, the spawn
    fails, the error carries the empty output, and the step returns one empty
    diagnostic line instead of throwing. *)
Lemma C2_absent_compiler_is_not_fatal :
  ~ (forall (w : World) (options : TypeScriptOptions) (error : ExecaError)
            (errno : string),
        execa w "tsc" (compileArgs options) = Rejected error ->
        failure error = SpawnFailed errno ->
        exists e, outcome (getTypeScriptCompileOutput w options) = Throw e).
Proof.
  intros H.
  destruct (H (Example.absent (Some "")) Example.options
              {| failure := SpawnFailed "ENOENT"; all := Some "" |} "ENOENT"
              eq_refl eq_refl) as [e E].
  vm_compute in E. discriminate.
Qed.

(** ** The correlation stage (lines 126-138) *)

(** C3, as amended: in a run that reaches the correlation stage the returned
    [errors] is the sum over the included files of [countFor], where a line
    counts for a file exactly when the file's path occurs in it.  So every
    line is counted once for each included path it contains: a line that
    contains no included path adds nothing, and the lines of a file that is
    not included are left out of the count as long as none of them contains
    an included path. *)
Theorem C3_error_count_is_sum (w : World) (args : Args) (lines : list string) :
  reachesCorrelation w args lines ->
  (exists r,
    outcome (strictify w args) = Ok r /\
    errors r = sumCounts (included w args) lines /\
    errors r = list_sum (map (fun line =>
                                List.length (filter (Js.includes line) (included w args)))
                             lines) /\
    errors r = sumCounts (included w args)
                 (filter (fun line => existsb (Js.includes line) (included w args)) lines) /\
    (forall g,
        (forall line, In line lines -> Js.includes line g = true ->
                      forall f, In f (included w args) -> Js.includes line f = false) ->
        errors r = sumCounts (included w args) (withoutLinesOf g lines))) /\
  (forall file line,
    Js.includes line file = true <-> exists p q, line = (p ++ file ++ q)%string).
Proof.
  intros (N & C & L). split; [|intros file line; apply JsFacts.includes_spec].
  pose proof (strictify_summary w args) as S. cbv zeta in S.
  destruct (ignoreFilesChangedOnBranch args); [congruence|].
  destruct S as [_ S]. destruct (changeSet w args); [congruence|].
  destruct S as [_ S]. rewrite L in S. destruct S as [_ S].
  eexists. split; [exact S|]. cbn [errors verdict].
  split; [reflexivity|]. split; [apply sumCounts_by_line|].
  split; [now rewrite sumCounts_relevant|].
  intros g H. symmetry. now apply sumCounts_without.
Qed.

Lemma C3_error_count_is_sum_witness :
  reachesCorrelation Example.world Example.args (Js.split "010" Example.tscText) /\
  exists r,
    outcome (strictify Example.world Example.args) = Ok r /\
    errors r = 2 /\
    sumCounts ["src/new.ts"; "src/app.ts"; "src/view.tsx"]
              (withoutLinesOf "src/lib.ts" (Js.split "010" Example.tscText)) = 2.
Proof.
  assert (R : reachesCorrelation Example.world Example.args
                (Js.split "010" Example.tscText)).
  { repeat split; vm_compute; discriminate. }
  split; [exact R|].
  destruct (C3_error_count_is_sum R) as ((r & O & E & _ & _ & W) & _).
  exists r. split; [exact O|]. split; [rewrite E; reflexivity|].
  change (sumCounts (included Example.world Example.args)
            (withoutLinesOf "src/lib.ts" (Js.split "010" Example.tscText)) = 2).
  rewrite <- (W "src/lib.ts"); [rewrite E; reflexivity|].
  intros line Il G f If.
  vm_compute in Il. vm_compute in If.
  destruct Il as [<-|[<-|[<-|[]]]]; try discriminate G;
    destruct If as [<-|[<-|[<-|[]]]]; reflexivity.
Defined.

(** C3 as the claim has it fails: [lib/app.ts] is excluded, the only line of
    the compiler is for it, and the line is counted all the same, for the
    included [app.ts] whose path it contains: leaving the lines of
    [lib/app.ts] out would give 0, the run returns 1. *)
Lemma C3_line_of_excluded_file_is_counted :
  ~ (forall (w : World) (args : Args) (lines : list string) (g : string),
        reachesCorrelation w args lines ->
        ~ In g (included w args) ->
        exists r,
          outcome (strictify w args) = Ok r /\
          errors r = sumCounts (included w args) (withoutLinesOf g lines)).
Proof.
  intros H.
  destruct (H Example.shadowed Example.args
              (diagnosticLines Example.shadowed Example.options) "lib/app.ts")
    as (r & O & E).
  - repeat split; vm_compute; discriminate.
  - vm_compute. intros [X|[]]. discriminate X.
  - vm_compute in O. injection O as <-. vm_compute in E. discriminate E.
Qed.

(** C4: whenever the run returns a result, [success] is true exactly when
    [errors] is zero. *)
Theorem C4_success_iff_no_errors (w : World) (args : Args) (r : StrictifyResult) :
  outcome (strictify w args) = Ok r ->
  success r = Nat.eqb (errors r) 0 /\ (success r = true <-> errors r = 0).
Proof.
  intros O.
  assert (E : success r = Nat.eqb (errors r) 0).
  { pose proof (strictify_summary w args) as S. cbv zeta in S. rewrite O in S.
    destruct (ignoreFilesChangedOnBranch args); [now destruct S as (_ & _ & _ & S)|].
    destruct S as [_ S]. destruct (changeSet w args).
    - destruct S as (_ & _ & S). now inversion S.
    - destruct S as [_ S]. destruct (compileOutput w (typeScriptOptions args)).
      + destruct S as [_ S]. now inversion S.
      + now destruct S as [_ S]. }
  split; [exact E|]. rewrite E. apply Nat.eqb_eq.
Qed.

Lemma C4_success_iff_no_errors_witness :
  outcome (strictify Example.world Example.args)
  = Ok {| success := false; errors := 2 |} /\
  outcome (strictify Example.passing Example.args)
  = Ok {| success := true; errors := 0 |} /\
  (false = Nat.eqb 2 0) /\ (true = Nat.eqb 0 0).
Proof.
  split; [reflexivity|]. split; [reflexivity|]. split.
  - exact (proj1 (C4_success_iff_no_errors Example.world Example.args
                    (r := {| success := false; errors := 2 |}) eq_refl)).
  - exact (proj1 (C4_success_iff_no_errors Example.passing Example.args
                    (r := {| success := true; errors := 0 |}) eq_refl)).
Defined.

(** ** The short circuit (lines 116-118) *)

(** C5 (the code departs from the claim): in a checkout with nothing changed
    and no branch to ignore, the run does not end with
    [{success: true, errors: 0}]: it throws at line 106, before the change
    set is computed: the fold without a seed of the exclusion step gets in
    the way.  [short_circuit] above shows the claim for every run that has a
    branch to ignore. *)
Theorem C5_short_circuit_unreached_without_ignore_branches :
  changeSet Example.cleanWorld Example.argsNoIgnore = [] /\
  strictify Example.cleanWorld Example.argsNoIgnore
  = ([EvExeca "git" (mergeBaseArgs "HEAD" "master");
      EvFoundSinceRevision (Some "abc123")],
     Throw (TypeError "Reduce of empty array with no initial value")).
Proof. split; reflexivity. Qed.

(** ** The diff against an unknown base (lines 30-44) *)

(** C6: with an unknown base revision, whatever the head revision,
    [findFilesFromDiffToRevision] resolves to the empty array and does
    nothing else: its trace is empty, so no diff query is made and nothing
    is logged or thrown. *)
Theorem C6_unknown_base_gives_no_files (w : World) (childRevision : string) :
  findFilesFromDiffToRevision w None childRevision = ([], Ok []) /\
  filter isDiffQuery (trace (findFilesFromDiffToRevision w None childRevision)) = [] /\
  diffFiles w None childRevision = [].
Proof. repeat split. Qed.

(** ** Exclusion (lines 120-138) *)

(** C7, as amended: the included files are the changed files that are not
    excluded; [onCheckFile] is called for included files only, never for an
    excluded one; a returned [errors] is the sum of the counts of the
    included files, in which an excluded file has no term of its own; and the
    lines of an excluded file are left out of the count as long as none of
    them contains the path of an included file. *)
Theorem C7_excluded_files_are_left_out (w : World) (args : Args) :
  (forall f, In f (included w args)
             <-> In f (changeSet w args) /\ ~ In f (exclusionSet w args)) /\
  (forall f b, In (EvCheckFile f b) (trace (strictify w args)) ->
               In f (included w args)) /\
  (forall f b, In f (exclusionSet w args) ->
               ~ In (EvCheckFile f b) (trace (strictify w args))) /\
  (forall r, outcome (strictify w args) = Ok r ->
             errors r = sumCounts (included w args)
                          (diagnosticLines w (typeScriptOptions args)) /\
             forall g,
               In g (exclusionSet w args) ->
               (forall line,
                   In line (diagnosticLines w (typeScriptOptions args)) ->
                   Js.includes line g = true ->
                   forall f, In f (included w args) -> Js.includes line f = false) ->
               errors r = sumCounts (included w args)
                            (withoutLinesOf g (diagnosticLines w (typeScriptOptions args)))).
Proof.
  assert (I : forall f, In f (included w args)
                <-> In f (changeSet w args) /\ ~ In f (exclusionSet w args))
    by (intros f; apply includedOf_In).
  assert (C : forall f b, In (EvCheckFile f b) (trace (strictify w args)) ->
                In f (included w args)).
  { intros f b H. apply In_checkEvents in H.
    pose proof (strictify_summary w args) as S. cbv zeta in S.
    destruct (ignoreFilesChangedOnBranch args).
    - destruct S as (_ & _ & S & _). rewrite S in H. destruct H.
    - destruct S as [_ S]. destruct (changeSet w args) eqn:CS.
      + destruct S as (_ & S & _). rewrite S in H. destruct H.
      + destruct S as [_ S]. destruct (compileOutput w (typeScriptOptions args)).
        * destruct S as [S _]. rewrite S in H. apply in_map_iff in H.
          destruct H as (x & E & X). now inversion E; subst.
        * destruct S as [S _]. rewrite S in H. destruct H. }
  split; [exact I|]. split; [exact C|]. split.
  - intros f b E H. apply C, I in H. tauto.
  - intros r O.
    assert (E : errors r = sumCounts (included w args)
                             (diagnosticLines w (typeScriptOptions args))).
    { pose proof (strictify_summary w args) as S. cbv zeta in S.
      rewrite O in S. unfold diagnosticLines.
      destruct (ignoreFilesChangedOnBranch args); [now destruct S as (_ & _ & _ & S)|].
      destruct S as [_ S]. unfold included in *. destruct (changeSet w args).
      + destruct S as (_ & _ & S). now inversion S.
      + destruct S as [_ S]. destruct (compileOutput w (typeScriptOptions args)).
        * destruct S as [_ S]. now inversion S.
        * now destruct S as [_ S]. }
    split; [exact E|]. intros g _ H. rewrite E. symmetry. now apply sumCounts_without.
Qed.

Lemma C7_excluded_files_are_left_out_witness :
  In "src/lib.ts" (changeSet Example.world Example.args) /\
  In "src/lib.ts" (exclusionSet Example.world Example.args) /\
  ~ In "src/lib.ts" (included Example.world Example.args) /\
  ~ In (EvCheckFile "src/lib.ts" true) (trace (strictify Example.world Example.args)) /\
  sumCounts (included Example.world Example.args)
    (diagnosticLines Example.world (typeScriptOptions Example.args)) = 2 /\
  sumCounts (included Example.world Example.args)
    (withoutLinesOf "src/lib.ts"
       (diagnosticLines Example.world (typeScriptOptions Example.args))) = 2.
Proof.
  destruct (C7_excluded_files_are_left_out Example.world Example.args)
    as (I & _ & C & E).
  assert (X : In "src/lib.ts" (exclusionSet Example.world Example.args))
    by (vm_compute; tauto).
  destruct (E {| success := false; errors := 2 |} eq_refl) as [E1 E2].
  split; [vm_compute; tauto|]. split; [exact X|]. split.
  - intros H. apply I in H. tauto.
  - split; [exact (C "src/lib.ts" true X)|]. split; [symmetry; exact E1|].
    symmetry. apply (E2 "src/lib.ts" X).
    intros line Il G f If.
    vm_compute in Il. vm_compute in If.
    destruct Il as [<-|[<-|[<-|[]]]]; try discriminate G;
      destruct If as [<-|[<-|[<-|[]]]]; reflexivity.
Defined.

(** C7 as the claim has it fails: [lib/app.ts] is in the change set and in
    the exclusion set, and its one diagnostic line still adds 1 to [errors],
    because the line contains the path of the included [app.ts]. *)
Lemma C7_excluded_file_can_add_to_errors :
  ~ (forall (w : World) (args : Args) (g : string) (r : StrictifyResult),
        In g (changeSet w args) ->
        In g (exclusionSet w args) ->
        outcome (strictify w args) = Ok r ->
        errors r = sumCounts (included w args)
                     (withoutLinesOf g (diagnosticLines w (typeScriptOptions args)))).
Proof.
  intros H.
  specialize (H Example.shadowed Example.args "lib/app.ts"
                {| success := false; errors := 1 |}).
  assert (E : 1 = 0); [|discriminate E].
  apply H; [vm_compute; tauto | vm_compute; tauto | reflexivity].
Qed.

(** ** The change set (lines 4 and 110-113) *)

(** C8: the step of lines 110-113 always resolves, to the change set: the
    list with no path twice that holds exactly the paths of the working tree
    or of the diff against the fork point that pass [isSupportedExtension],
    each of which ends in [.ts] or [.tsx].  Every run that gets past the fold
    of line 106 computes it and hands it to [onFoundChangedFiles], once; a
    run with no branch to ignore throws before and has no change set. *)
Theorem C8_change_set_is_filtered_union (w : World) (args : Args) :
  outcome (findChangedFiles w (forkPoint w "HEAD" (targetBranch args)))
  = Ok (changeSet w args) /\
  foundChangedFiles (trace (strictify w args))
  = match ignoreFilesChangedOnBranch args with
    | [] => []
    | _ :: _ => [changeSet w args]
    end /\
  NoDup (changeSet w args) /\
  (forall f, In f (changeSet w args)
             <-> (In f (workingTreeChanges w) \/
                  In f (diffFiles w (forkPoint w "HEAD" (targetBranch args)) "HEAD")) /\
                 isSupportedExtension f = true) /\
  (forall f, In f (changeSet w args) ->
             exists stem, f = (stem ++ ".ts")%string \/ f = (stem ++ ".tsx")%string) /\
  (forall l, In (EvFoundChangedFiles l) (trace (strictify w args)) ->
             l = changeSet w args).
Proof.
  assert (F : foundChangedFiles (trace (strictify w args))
              = match ignoreFilesChangedOnBranch args with
                | [] => []
                | _ :: _ => [changeSet w args]
                end).
  { pose proof (strictify_summary w args) as S. cbv zeta in S.
    destruct (ignoreFilesChangedOnBranch args); now destruct S as [S _]. }
  split.
  { destruct (findChangedFiles_resolves w (forkPoint w "HEAD" (targetBranch args)))
      as (q & _ & E).
    rewrite E. reflexivity. }
  split; [exact F|].
  split; [apply changeSet_NoDup|].
  assert (I : forall f, In f (changeSet w args)
                <-> (In f (workingTreeChanges w) \/
                     In f (diffFiles w (forkPoint w "HEAD" (targetBranch args)) "HEAD")) /\
                    isSupportedExtension f = true).
  { intros f. unfold changeSet, unfilteredChanges.
    now rewrite filter_In, JsFacts.arrayFromSet_In, in_app_iff. }
  split; [exact I|]. split.
  - intros f H. apply isSupportedExtension_spec. now apply I in H.
  - intros l H. apply In_foundChangedFiles in H. rewrite F in H.
    destruct (ignoreFilesChangedOnBranch args); [destruct H|].
    destruct H as [H|[]]. now symmetry.
Qed.

Lemma C8_change_set_is_filtered_union_witness :
  foundChangedFiles (trace (strictify Example.world Example.args))
  = [["src/new.ts"; "src/app.ts"; "src/lib.ts"; "src/view.tsx"]] /\
  In "src/view.tsx" (changeSet Example.world Example.args) /\
  (exists stem, "src/view.tsx" = (stem ++ ".ts")%string
                \/ "src/view.tsx" = (stem ++ ".tsx")%string) /\
  ~ In "README.md" (changeSet Example.world Example.args) /\
  ["src/new.ts"; "src/app.ts"; "src/lib.ts"; "src/view.tsx"]
  = changeSet Example.world Example.args.
Proof.
  destruct (C8_change_set_is_filtered_union Example.world Example.args)
    as (_ & R & _ & I & S & F).
  assert (X : In "src/view.tsx" (changeSet Example.world Example.args)).
  { apply I. split; [right; vm_compute; tauto | reflexivity]. }
  split; [rewrite R; reflexivity|]. split; [exact X|]. split; [exact (S _ X)|]. split.
  - intros H. apply I in H. destruct H as [_ H]. vm_compute in H. discriminate.
  - apply F. vm_compute. tauto.
Defined.

(** ** Notifications (lines 126-138) *)

(** C9: in a run that reaches the correlation stage the [onCheckFile] calls
    are, in order, one per included file, each with the flag that tells
    whether some output line contains the file's path; so an included file has
    exactly one call, and one without a matching line has the call with
    [false]. *)
Theorem C9_one_notification_per_included_file (w : World) (args : Args)
    (lines : list string) :
  reachesCorrelation w args lines ->
  checkEvents (trace (strictify w args))
  = map (fun file => (file, hasDiagnostics file lines)) (included w args) /\
  (forall f, In f (included w args) ->
     filter (fun ev => String.eqb (fst ev) f) (checkEvents (trace (strictify w args)))
     = [(f, hasDiagnostics f lines)]) /\
  (forall f, In f (included w args) -> countFor f lines = 0 ->
     In (EvCheckFile f false) (trace (strictify w args))).
Proof.
  intros (N & C & L). pose proof (strictify_summary w args) as S. cbv zeta in S.
  destruct (ignoreFilesChangedOnBranch args); [congruence|].
  destruct S as [_ S]. destruct (changeSet w args); [congruence|].
  destruct S as [_ S]. rewrite L in S. destruct S as [S _].
  split; [exact S|]. split.
  - intros f I. rewrite S.
    exact (@filter_by_key _ (fun file => hasDiagnostics file lines) _ f
             (included_NoDup w args) I).
  - intros f I Z. apply In_checkEvents. rewrite S. apply in_map_iff.
    exists f. split; [|exact I]. f_equal.
    rewrite <- hasDiagnostics_countFor, Z. reflexivity.
Qed.

Lemma C9_one_notification_per_included_file_witness :
  reachesCorrelation Example.world Example.args (Js.split "010" Example.tscText) /\
  checkEvents (trace (strictify Example.world Example.args))
  = [("src/new.ts", false); ("src/app.ts", true); ("src/view.tsx", false)] /\
  In (EvCheckFile "src/new.ts" false) (trace (strictify Example.world Example.args)).
Proof.
  assert (R : reachesCorrelation Example.world Example.args
                (Js.split "010" Example.tscText)).
  { repeat split; vm_compute; discriminate. }
  split; [exact R|].
  destruct (C9_one_notification_per_included_file R) as (E & _ & Z).
  split; [rewrite E; reflexivity|].
  apply Z; [vm_compute; tauto | reflexivity].
Defined.

(** ** Every changed file excluded (lines 116-143) *)

Lemma compileOutput_captured (w : World) (options : TypeScriptOptions) :
  capturesOutput w -> exists lines, compileOutput w options = Ok lines.
Proof.
  intros H. unfold compileOutput.
  destruct (execa w "tsc" (compileArgs options)) as [out|error] eqn:E;
    [now exists []|].
  destruct (H _ _ _ E) as [text ->]. now eexists.
Qed.

Lemma onlyLib_captures : capturesOutput (Example.onlyLib (Some "")).
Proof.
  intros f a error. cbn [Example.onlyLib Example.absent execa].
  destruct (String.eqb f "git").
  - unfold Example.git.
    repeat match goal with
           | |- context [match ?x with _ => _ end] => destruct x
           end;
      intros H; try discriminate H; injection H as <-; now eexists.
  - intros H. injection H as <-. now eexists.
Qed.

(** C10: when the change set is not empty and every changed file is
    excluded, the compiler is still run exactly once, [onCheckFile] is never
    called and the run returns [{success: true, errors: 0}].  The rejections
    of [execa] carry their captured output, as the [catch] of line 54 takes
    for granted. *)
Theorem C10_all_excluded_still_compiles (w : World) (args : Args) :
  capturesOutput w ->
  changeSet w args <> [] ->
  (forall f, In f (changeSet w args) -> In f (exclusionSet w args)) ->
  compilerRuns (trace (strictify w args)) = 1 /\
  checkEvents (trace (strictify w args)) = [] /\
  outcome (strictify w args) = Ok {| success := true; errors := 0 |}.
Proof.
  intros K C A. destruct (all_excluded_run w args C A) as (R & E & O).
  destruct (compileOutput_captured (typeScriptOptions args) K) as [lines L].
  rewrite L in O. auto.
Qed.

Lemma C10_all_excluded_still_compiles_witness :
  changeSet (Example.onlyLib (Some "")) Example.args = ["src/lib.ts"] /\
  exclusionSet (Example.onlyLib (Some "")) Example.args = ["src/lib.ts"] /\
  compilerRuns (trace (strictify (Example.onlyLib (Some "")) Example.args)) = 1 /\
  checkEvents (trace (strictify (Example.onlyLib (Some "")) Example.args)) = [] /\
  outcome (strictify (Example.onlyLib (Some "")) Example.args)
  = Ok {| success := true; errors := 0 |}.
Proof.
  split; [reflexivity|]. split; [reflexivity|].
  apply (@C10_all_excluded_still_compiles (Example.onlyLib (Some "")) Example.args).
  - exact onlyLib_captures.
  - vm_compute. discriminate.
  - intros f H. vm_compute in H. vm_compute. exact H.
Defined.

(** * Further properties of the code *)

(** ** Traces of composed computations *)

Lemma trace_bind {A B} (m : M A) (k : A -> M B) :
  trace (bind m k)
  = trace m ++ match outcome m with
               | Ok a => trace (k a)
               | Throw _ => []
               end.
Proof.
  destruct m as [t [a|e]]; cbn [trace outcome fst snd].
  - now rewrite bind_Ok.
  - cbn. now rewrite app_nil_r.
Qed.

Lemma outcome_bind {A B} (m : M A) (k : A -> M B) :
  outcome (bind m k)
  = match outcome m with
    | Ok a => outcome (k a)
    | Throw e => Throw e
    end.
Proof.
  destruct m as [t [a|e]]; cbn [trace outcome fst snd]; [now rewrite bind_Ok | reflexivity].
Qed.

Lemma resolves_outcome {A} (m : M A) (a : A) :
  resolves m a -> outcome m = Ok a /\ quiet (trace m).
Proof. intros (q & Q & ->). now split. Qed.

Lemma gitRuns_app (t u : list Event) : gitRuns (t ++ u) = gitRuns t + gitRuns u.
Proof. unfold gitRuns. now rewrite filter_app, length_app. Qed.

Lemma gitRuns_cons (ev : Event) (t : list Event) :
  gitRuns (ev :: t) = (if isGitRun ev then 1 else 0) + gitRuns t.
Proof. unfold gitRuns. cbn [filter]. now destruct (isGitRun ev). Qed.

Lemma diffQueries_app (t u : list Event) :
  diffQueries (t ++ u) = diffQueries t ++ diffQueries u.
Proof.
  induction t as [|ev t IH]; [reflexivity|].
  destruct ev; simpl; now rewrite ?IH.
Qed.

Lemma logged_app (t u : list Event) : logged (t ++ u) = logged t ++ logged u.
Proof.
  induction t as [|ev t IH]; [reflexivity|].
  destruct ev; simpl; now rewrite ?IH.
Qed.

Lemma callbacks_app (t u : list Event) : callbacks (t ++ u) = callbacks t ++ callbacks u.
Proof. apply filter_app. Qed.

Lemma quiet_mute (t : list Event) : quiet t -> logged t = [] /\ callbacks t = [].
Proof.
  induction 1 as [|ev t H _ (IH1 & IH2)]; [now split|].
  destruct ev; simpl in *; try discriminate; auto.
Qed.

Lemma reports_callbacks (t : list Event) :
  reports t ->
  callbacks t = map checkFileEvent (checkEvents t) /\
  gitRuns t = 0 /\ diffQueries t = [].
Proof.
  unfold gitRuns.
  induction 1 as [|ev t H _ (IH1 & IH2 & IH3)]; [now repeat split|].
  destruct ev; simpl in *; try discriminate; auto.
  split; [|now split]. unfold checkFileEvent at 1. cbn. now f_equal.
Qed.

(** ** The extension predicate (line 4) *)

(** X1: [isSupportedExtension] accepts a file name exactly when it ends in
    [.ts] or in [.tsx]: what precedes the suffix is free (it may be empty or
    hold further dots), and nothing may follow it. *)
Theorem X1_supported_extension_is_a_suffix_test (fileName : string) :
  isSupportedExtension fileName = true <->
  exists stem, fileName = (stem ++ ".ts")%string \/ fileName = (stem ++ ".tsx")%string.
Proof. apply isSupportedExtension_spec. Qed.

Lemma X1_supported_extension_is_a_suffix_test_witness :
  isSupportedExtension "src/types.d.ts" = true /\
  exists stem, "view.tsx" = (stem ++ ".ts")%string \/ "view.tsx" = (stem ++ ".tsx")%string.
Proof.
  split.
  - apply (proj2 (X1_supported_extension_is_a_suffix_test "src/types.d.ts")).
    exists "src/types.d". left. reflexivity.
  - apply (proj1 (X1_supported_extension_is_a_suffix_test "view.tsx")).
    reflexivity.
Defined.

(** ** The diff against a known base (lines 30-44) *)

(** X2: with a known base revision [findFilesFromDiffToRevision] never
    throws and asks for exactly one diff summary: when the query succeeds it
    resolves to the file names of the summary, one per entry and in the
    summary's order; when the query is rejected it logs one error and
    resolves to the empty array. *)
Theorem X2_diff_against_known_base (w : World) (base childRevision : string) :
  findFilesFromDiffToRevision w (Some base) childRevision
  = (EvGitDiffSummary base childRevision
       :: match diffSummary w base childRevision with
          | Some _ => []
          | None => [EvConsoleError "Can not find files that changed compared to master"]
          end,
     Ok match diffSummary w base childRevision with
        | Some summary => map file (files summary)
        | None => []
        end).
Proof.
  unfold findFilesFromDiffToRevision. rewrite bind_emit.
  destruct (diffSummary w base childRevision) as [summary|].
  - now rewrite fold_left_snoc_map.
  - reflexivity.
Qed.

(** ** The argument vector of the compiler (lines 47-49) *)

Lemma fold_left_pairs {A} (l : list (A * A)) (init : list A) :
  fold_left (fun result kv => result ++ [fst kv; snd kv]) l init
  = init ++ flat_map (fun kv => [fst kv; snd kv]) l.
Proof.
  revert init; induction l as [|kv l IH]; intros init; simpl.
  - now rewrite app_nil_r.
  - now rewrite IH, <- app_assoc.
Qed.

(** X3: the compiler gets, for every option in turn, the option's name
    behind two dashes immediately followed by the option's value: two tokens
    per option, sixteen in all, and an option that is [false] is passed with
    its value, not left out. *)
Theorem X3_every_option_is_a_flag_and_its_value (options : TypeScriptOptions) :
  compileArgs options
  = flat_map (fun kv => [ArgStr ("--" ++ fst kv); ArgBool (snd kv)]) (entries options) /\
  List.length (compileArgs options) = 2 * List.length (entries options) /\
  (forall name value,
      In (name, value) (entries options) ->
      exists before after,
        compileArgs options
        = before ++ ArgStr ("--" ++ name) :: ArgBool value :: after).
Proof.
  assert (E : compileArgs options
              = flat_map (fun kv => [ArgStr ("--" ++ fst kv); ArgBool (snd kv)])
                         (entries options)).
  { unfold compileArgs. rewrite fold_left_pairs. cbn [app].
    generalize (entries options). intros l.
    induction l as [|kv l IH]; [reflexivity|]. simpl. do 2 f_equal. exact IH. }
  split; [exact E|]. split.
  - rewrite E. generalize (entries options). intros l.
    induction l as [|kv l IH]; [reflexivity|]. simpl in *. rewrite IH. lia.
  - intros name value I. rewrite E. revert I. generalize (entries options).
    intros l I. apply in_split in I. destruct I as (l1 & l2 & ->).
    rewrite flat_map_app. cbn. eexists. eexists. reflexivity.
Qed.

Lemma X3_every_option_is_a_flag_and_its_value_witness :
  exists before after,
    compileArgs {| noImplicitAny := true; noImplicitThis := true; alwaysStrict := true;
                   strictBindCallApply := true; strictNullChecks := false;
                   strictFunctionTypes := true; strictPropertyInitialization := true;
                   noEmit := true |}
    = before ++ ArgStr "--strictNullChecks" :: ArgBool false :: after.
Proof.
  apply (proj2 (proj2 (X3_every_option_is_a_flag_and_its_value _))
           "strictNullChecks" false).
  vm_compute. tauto.
Defined.

(** ** The lines of the compiler output (lines 51-58) *)

Lemma split_length (sep : ascii) (s : string) :
  List.length (Js.split sep s) = S (occurrences sep s).
Proof.
  induction s as [|c s IH]; [reflexivity|]. cbn [Js.split occurrences].
  destruct (Ascii.eqb c sep).
  - cbn. now rewrite IH.
  - pose proof (JsFacts.split_not_nil sep s) as N.
    destruct (Js.split sep s) as [|x l]; [congruence|]. exact IH.
Qed.

Lemma split_pieces (sep : ascii) (s : string) :
  Forall (fun piece => occurrences sep piece = 0) (Js.split sep s).
Proof.
  induction s as [|c s IH]; [now repeat constructor|]. cbn [Js.split].
  destruct (Ascii.eqb c sep) eqn:E.
  - constructor; [reflexivity | exact IH].
  - destruct (Js.split sep s) as [|x l]; [repeat constructor; cbn; now rewrite E|].
    inversion IH; subst. constructor; [|assumption]. cbn. now rewrite E.
Qed.

(** X4: [getTypeScriptCompileOutput] spawns the compiler exactly once,
    whatever comes of it.  When the invocation is rejected with captured
    output, the lines it resolves to are one more than the newlines of that
    output (so at least one line, even for empty output), and no line holds a
    newline. *)
Theorem X4_compiler_output_lines (w : World) (options : TypeScriptOptions) :
  compilerRuns (trace (getTypeScriptCompileOutput w options)) = 1 /\
  (forall error text,
      execa w "tsc" (compileArgs options) = Rejected error ->
      all error = Some text ->
      exists lines,
        outcome (getTypeScriptCompileOutput w options) = Ok lines /\
        List.length lines = S (occurrences "010" text) /\
        Forall (fun line => occurrences "010" line = 0) lines).
Proof.
  rewrite getTypeScriptCompileOutput_run. split; [reflexivity|].
  intros error text E A. cbn [outcome snd]. unfold compileOutput. rewrite E, A.
  eexists. split; [reflexivity|]. split; [apply split_length | apply split_pieces].
Qed.

Lemma X4_compiler_output_lines_witness :
  exists lines,
    outcome (getTypeScriptCompileOutput Example.world Example.options) = Ok lines /\
    List.length lines = 3 /\
    Forall (fun line => occurrences "010" line = 0) lines.
Proof.
  destruct (proj2 (X4_compiler_output_lines Example.world Example.options)
              {| failure := ExitNonZero 2; all := Some Example.tscText |}
              Example.tscText eq_refl eq_refl) as (lines & O & L & F).
  exists lines. split; [exact O|]. split; [rewrite L; reflexivity | exact F].
Defined.

(** ** The queries of a run (lines 97-113) *)

Lemma promiseAllMap_run {A B} (f : A -> M B) (g : A -> B) (arr : list A) :
  (forall x, outcome (f x) = Ok (g x)) ->
  trace (promiseAllMap f arr) = flat_map (fun x => trace (f x)) arr /\
  outcome (promiseAllMap f arr) = Ok (map g arr).
Proof.
  intros H. induction arr as [|x arr [IHt IHo]]; [now split|].
  cbn [promiseAllMap flat_map map].
  rewrite trace_bind, outcome_bind, H, trace_bind, outcome_bind, IHo, IHt.
  cbn [ret trace outcome fst snd]. now rewrite app_nil_r.
Qed.

Lemma findFiles_queries (w : World) (base : option string) (child : string) :
  gitRuns (trace (findFilesFromDiffToRevision w base child)) = 0 /\
  diffQueries (trace (findFilesFromDiffToRevision w base child))
  = match base with
    | Some b => [(b, child)]
    | None => []
    end.
Proof.
  unfold findFilesFromDiffToRevision. destruct base as [b|]; [|now split].
  rewrite bind_emit. now destruct (diffSummary w b child).
Qed.

Lemma findModified_queries (w : World) :
  gitRuns (trace (findModifiedAndUntrackedFiles w)) = 0 /\
  diffQueries (trace (findModifiedAndUntrackedFiles w)) = [].
Proof.
  unfold findModifiedAndUntrackedFiles. rewrite bind_emit. now destruct (status w).
Qed.

Lemma findExcludedFiles_queries (w : World) (args : Args) :
  gitRuns (trace (findExcludedFiles w args))
  = List.length (ignoreFilesChangedOnBranch args) /\
  diffQueries (trace (findExcludedFiles w args))
  = flat_map (diffQueryOf w (targetBranch args)) (ignoreFilesChangedOnBranch args).
Proof.
  unfold findExcludedFiles. rewrite trace_bind.
  match goal with |- context [promiseAllMap ?f _] => set (perBranch := f) end.
  assert (O : forall b, outcome (perBranch b)
                = Ok (diffFiles w (forkPoint w b (targetBranch args)) b)).
  { intros b. unfold perBranch. rewrite findCommit_run, bind_Ok.
    cbn [outcome snd]. now destruct (resolves_outcome (findFiles_resolves w
      (forkPoint w b (targetBranch args)) b)). }
  destruct (promiseAllMap_run perBranch _ (ignoreFilesChangedOnBranch args) O)
    as [T R].
  rewrite R, T.
  assert (E : forall l, trace (reduceNoInit
                (fun accumulator currentValue : list string => accumulator ++ currentValue) l)
              = []) by (intros [|x l]; reflexivity).
  rewrite E, app_nil_r. clear T R E.
  induction (ignoreFilesChangedOnBranch args) as [|b bs [IHg IHd]]; [now split|].
  cbn [flat_map List.length]. rewrite gitRuns_app, diffQueries_app, IHg, IHd.
  unfold perBranch. cbv beta. rewrite findCommit_run, bind_Ok. cbn [trace fst app].
  change (fst ?m) with (trace m).
  destruct (findFiles_queries w (forkPoint w b (targetBranch args)) b) as [G D].
  split.
  - change (gitRuns (?e :: ?t)) with (gitRuns ([e] ++ t)).
    rewrite gitRuns_app, G. reflexivity.
  - cbn [diffQueries]. rewrite D. reflexivity.
Qed.

Lemma findChangedFiles_queries (w : World) (commit : option string) :
  gitRuns (trace (findChangedFiles w commit)) = 0 /\
  diffQueries (trace (findChangedFiles w commit))
  = match commit with
    | Some b => [(b, "HEAD")]
    | None => []
    end.
Proof.
  unfold findChangedFiles. rewrite trace_bind.
  destruct (resolves_outcome (findModified_resolves w)) as [Om _]. rewrite Om.
  rewrite trace_bind.
  destruct (resolves_outcome (findFiles_resolves w commit "HEAD")) as [Of _]. rewrite Of.
  cbn [ret trace fst]. rewrite app_nil_r, gitRuns_app, diffQueries_app.
  destruct (findModified_queries w) as [G1 D1].
  destruct (findFiles_queries w commit "HEAD") as [G2 D2].
  unfold trace in *. now rewrite G1, D1, G2, D2.
Qed.

Lemma checkChangedFiles_queries (w : World) (options : TypeScriptOptions)
    (changedFiles excludedFiles : list string) :
  gitRuns (trace (checkChangedFiles w options changedFiles excludedFiles)) = 0 /\
  diffQueries (trace (checkChangedFiles w options changedFiles excludedFiles)) = [].
Proof.
  destruct changedFiles as [|c cs]; [now split|].
  destruct (checkChangedFiles_compiles w options excludedFiles (changedFiles := c :: cs))
    as (t & R & T & _); [congruence|].
  rewrite T. destruct (reports_callbacks R) as (_ & G & D).
  change (gitRuns (?e :: t)) with (gitRuns ([e] ++ t)).
  rewrite gitRuns_app, G. cbn [diffQueries]. now rewrite D.
Qed.

(** The trace of a run, piece by piece. *)
Lemma strictify_trace (w : World) (args : Args) :
  trace (strictify w args)
  = EvExeca "git" (mergeBaseArgs "HEAD" (targetBranch args))
      :: EvFoundSinceRevision (forkPoint w "HEAD" (targetBranch args))
      :: trace (findExcludedFiles w args)
      ++ match ignoreFilesChangedOnBranch args with
         | [] => []
         | _ :: _ =>
             trace (findChangedFiles w (forkPoint w "HEAD" (targetBranch args)))
             ++ EvFoundChangedFiles (changeSet w args)
             :: trace (checkChangedFiles w (typeScriptOptions args)
                         (changeSet w args) (exclusionSet w args))
         end.
Proof.
  unfold strictify, findCommitAtWhichTheCurrentBranchForkedFromTargetBranch.
  rewrite findCommit_run, bind_Ok, bind_emit. cbn [trace fst app].
  do 2 f_equal. change (fst ?m) with (trace m). rewrite trace_bind. f_equal.
  destruct (ignoreFilesChangedOnBranch args) as [|b bs] eqn:I.
  - now rewrite (findExcludedFiles_empty w args I).
  - assert (N : ignoreFilesChangedOnBranch args <> []) by congruence.
    destruct (resolves_outcome (findExcludedFiles_resolves w args N)) as [Oe _].
    rewrite Oe, trace_bind.
    destruct (resolves_outcome
                (findChangedFiles_resolves w (forkPoint w "HEAD" (targetBranch args))))
      as [Oc _].
    fold (unfilteredChanges w args) in Oc. fold (changeSet w args) in Oc.
    rewrite Oc, bind_emit. reflexivity.
Qed.

(** X5: every run, also one that throws, spawns [git merge-base] once for
    the current branch and once for every branch to ignore, duplicates
    included.  Its diff queries are, in whatever order they were issued, one
    for every branch to ignore whose fork point is known and, when the list
    is not empty, one for [HEAD] when its fork point is known; a branch with
    an unknown fork point is never diffed. *)
Theorem X5_git_queries_of_a_run (w : World) (args : Args) :
  gitRuns (trace (strictify w args))
  = S (List.length (ignoreFilesChangedOnBranch args)) /\
  Permutation
    (diffQueries (trace (strictify w args)))
    (flat_map (diffQueryOf w (targetBranch args)) (ignoreFilesChangedOnBranch args)
     ++ match ignoreFilesChangedOnBranch args with
        | [] => []
        | _ :: _ => diffQueryOf w (targetBranch args) "HEAD"
        end).
Proof.
  rewrite strictify_trace.
  destruct (findExcludedFiles_queries w args) as [Ge De].
  destruct (findChangedFiles_queries w (forkPoint w "HEAD" (targetBranch args)))
    as [Gc Dc].
  destruct (checkChangedFiles_queries w (typeScriptOptions args)
              (changeSet w args) (exclusionSet w args)) as [Gk Dk].
  rewrite !gitRuns_cons, gitRuns_app, Ge. cbn [diffQueries isGitRun String.eqb].
  rewrite diffQueries_app, De.
  destruct (ignoreFilesChangedOnBranch args) as [|b bs].
  - split; [cbn; lia | apply Permutation_refl].
  - rewrite gitRuns_app, gitRuns_cons, diffQueries_app, Gc, Dc. cbn [diffQueries isGitRun].
    rewrite Gk, Dk. split.
    + cbn. lia.
    + unfold diffQueryOf at 3. rewrite app_nil_r. apply Permutation_refl.
Qed.

(** ** When the compiler runs (lines 116-124) *)

(** X6: a run spawns the compiler at most once, and it does so exactly when
    there is a branch to ignore and the change set is not empty; whether
    any changed file is left after the exclusion plays no part. *)
Theorem X6_compiler_runs_iff_something_changed (w : World) (args : Args) :
  compilerRuns (trace (strictify w args)) <= 1 /\
  (compilerRuns (trace (strictify w args)) = 1
   <-> ignoreFilesChangedOnBranch args <> [] /\ changeSet w args <> []).
Proof.
  pose proof (strictify_summary w args) as S. cbv zeta in S.
  destruct (ignoreFilesChangedOnBranch args) as [|b bs].
  - destruct S as (_ & -> & _). split; [lia|]. split; [discriminate | tauto].
  - destruct S as [_ S]. destruct (changeSet w args) as [|c cs].
    + destruct S as (-> & _). split; [lia|]. split; [discriminate | tauto].
    + destruct S as (-> & _). split; [lia|]. split; [|reflexivity].
      intros _. split; discriminate.
Qed.

Lemma X6_compiler_runs_iff_something_changed_witness :
  compilerRuns (trace (strictify Example.world Example.args)) = 1 /\
  changeSet Example.cleanWorld Example.args = [] /\
  compilerRuns (trace (strictify Example.cleanWorld Example.args)) <> 1.
Proof.
  split; [|split; [reflexivity|]].
  - apply (proj2 (X6_compiler_runs_iff_something_changed Example.world Example.args)).
    split; vm_compute; discriminate.
  - intros H.
    apply (proj2 (X6_compiler_runs_iff_something_changed Example.cleanWorld Example.args))
      in H.
    destruct H as [_ H]. apply H. reflexivity.
Defined.

(** ** The order of the callbacks (lines 98, 114, 130 and 136) *)

(** X7: the callbacks of a run come in a fixed order.  [onFoundSinceRevision]
    is called first and exactly once, with the fork point of [HEAD] (or
    [undefined]), also in a run that throws afterwards; with a branch to
    ignore, [onFoundChangedFiles] follows exactly once, with the change set;
    every [onCheckFile] call comes after both. *)
Theorem X7_callbacks_come_in_order (w : World) (args : Args) :
  callbacks (trace (strictify w args))
  = EvFoundSinceRevision (forkPoint w "HEAD" (targetBranch args))
      :: match ignoreFilesChangedOnBranch args with
         | [] => []
         | _ :: _ =>
             EvFoundChangedFiles (changeSet w args)
               :: map checkFileEvent (checkEvents (trace (strictify w args)))
         end.
Proof.
  destruct (ignoreFilesChangedOnBranch args) as [|b bs] eqn:I.
  - now rewrite (strictify_empty_ignore w args I).
  - assert (N : ignoreFilesChangedOnBranch args <> []) by congruence.
    destruct (strictify_proceeds w args N) as (q1 & q2 & Q1 & Q2 & E).
    rewrite E. cbn [trace fst].
    destruct (prelude_silent
                (trace (checkChangedFiles w (typeScriptOptions args)
                          (changeSet w args) (exclusionSet w args)))
                (forkPoint w "HEAD" (targetBranch args)) (changeSet w args) Q1 Q2)
      as (_ & _ & C).
    rewrite C. clear C E.
    destruct (quiet_mute Q1) as [_ C1]. destruct (quiet_mute Q2) as [_ C2].
    rewrite callbacks_app, C1. cbn [app callbacks filter isCallback].
    fold (callbacks (q2 ++ EvFoundChangedFiles (changeSet w args)
            :: trace (checkChangedFiles w (typeScriptOptions args)
                        (changeSet w args) (exclusionSet w args)))).
    rewrite callbacks_app, C2. cbn [app callbacks filter isCallback].
    do 2 f_equal.
    destruct (changeSet w args) as [|c cs]; [reflexivity|].
    destruct (checkChangedFiles_compiles w (typeScriptOptions args)
                (exclusionSet w args) (changedFiles := c :: cs))
      as (t & R & T & _); [congruence|].
    rewrite T. cbn [filter isCallback checkEvents].
    apply (reports_callbacks R).
Qed.

(** ** The result and the notifications (lines 126-143) *)

Lemma sumCounts_zero (files lines : list string) :
  Nat.eqb (sumCounts files lines) 0
  = forallb (fun file => negb (hasDiagnostics file lines)) files.
Proof.
  unfold sumCounts. induction files as [|f files IH]; [reflexivity|].
  cbn [map list_sum forallb]. rewrite <- IH, <- hasDiagnostics_countFor, negb_involutive.
  destruct (countFor f lines); [reflexivity|]. reflexivity.
Qed.

Lemma flagged_le_sumCounts (files lines : list string) :
  List.length (filter (fun file => hasDiagnostics file lines) files)
  <= sumCounts files lines.
Proof.
  unfold sumCounts. induction files as [|f files IH]; [apply Nat.le_refl|].
  cbn [map filter]. change (list_sum (?x :: ?l)) with (x + list_sum l).
  pose proof (hasDiagnostics_countFor f lines) as H.
  destruct (hasDiagnostics f lines); cbn [List.length].
  - destruct (countFor f lines); [discriminate|]. lia.
  - lia.
Qed.

Lemma forallb_flags (g : string -> bool) (files : list string) :
  forallb (fun call => negb (snd call)) (map (fun file => (file, g file)) files)
  = forallb (fun file => negb (g file)) files.
Proof.
  induction files as [|f fs IH]; [reflexivity|]. cbn. now rewrite IH.
Qed.

Lemma filter_flags (g : string -> bool) (files : list string) :
  List.length (filter (fun call => snd call) (map (fun file => (file, g file)) files))
  = List.length (filter g files).
Proof.
  induction files as [|f fs IH]; [reflexivity|]. cbn.
  destruct (g f); cbn; now rewrite IH.
Qed.

(** X8: in a run that returns a result, [success] is true exactly when every
    [onCheckFile] call of the run reported [false]; and [errors] is at least
    the number of files reported with [true] (it counts matching lines, not
    files). *)
Theorem X8_success_iff_no_file_flagged (w : World) (args : Args) (r : StrictifyResult) :
  outcome (strictify w args) = Ok r ->
  success r
  = forallb (fun call => negb (snd call)) (checkEvents (trace (strictify w args))) /\
  List.length (filter (fun call => snd call) (checkEvents (trace (strictify w args))))
  <= errors r.
Proof.
  intros O. pose proof (strictify_summary w args) as S. cbv zeta in S.
  rewrite O in S.
  destruct (ignoreFilesChangedOnBranch args); [now destruct S as (_ & _ & _ & S)|].
  destruct S as [_ S]. destruct (changeSet w args).
  - destruct S as (_ & -> & S). inversion S. split; [reflexivity | apply Nat.le_refl].
  - destruct S as [_ S].
    destruct (compileOutput w (typeScriptOptions args)) as [lines|e];
      [|now destruct S as [_ S]].
    destruct S as [-> S]. inversion S. cbn [verdict success errors].
    rewrite sumCounts_zero. split.
    + symmetry. apply (forallb_flags (fun file => hasDiagnostics file lines)).
    + rewrite (filter_flags (fun file => hasDiagnostics file lines)).
      apply flagged_le_sumCounts.
Qed.

Lemma X8_success_iff_no_file_flagged_witness :
  outcome (strictify Example.world Example.args)
  = Ok {| success := false; errors := 2 |} /\
  forallb (fun call => negb (snd call))
    (checkEvents (trace (strictify Example.world Example.args))) = false /\
  List.length (filter (fun call => snd call)
                 (checkEvents (trace (strictify Example.world Example.args)))) <= 2.
Proof.
  destruct (X8_success_iff_no_file_flagged Example.world Example.args
              (r := {| success := false; errors := 2 |}) eq_refl) as [S L].
  split; [reflexivity|]. split; [now rewrite <- S | exact L].
Defined.

(** ** The printed lines (line 133) *)

Lemma scanLines_logged (fileName : string) (tscOut : list string)
    (totalErrorCount errorCount : nat) :
  logged (trace (scanLines fileName tscOut totalErrorCount errorCount))
  = filter (fun line => Js.includes line fileName) tscOut.
Proof.
  revert totalErrorCount errorCount.
  induction tscOut as [|line rest IH]; intros total count; [reflexivity|].
  cbn [scanLines filter]. destruct (Js.includes line fileName); [|apply IH].
  rewrite trace_bind.
  assert (E : forall m : M unit,
             m = emit (EvCheckFile fileName true) \/ m = ret tt ->
             outcome m = Ok tt /\ logged (trace m) = []).
  { intros m [-> | ->]; now split. }
  destruct (E (if Nat.eqb count 0 then emit (EvCheckFile fileName true) else ret tt))
    as [O L]; [destruct (Nat.eqb count 0); auto|].
  rewrite O, logged_app, L, bind_emit. cbn [trace fst app logged].
  f_equal. apply IH.
Qed.

Lemma checkFile_logged (tscOut : list string) (totalErrorCount : nat) (fileName : string) :
  logged (trace (checkFile tscOut totalErrorCount fileName))
  = filter (fun line => Js.includes line fileName) tscOut.
Proof.
  unfold checkFile. rewrite trace_bind.
  destruct (scanLines_run fileName tscOut totalErrorCount 0) as (t & E & _).
  rewrite logged_app, scanLines_logged, E. cbn [outcome snd].
  destruct (Nat.eqb (0 + countFor fileName tscOut) 0); cbn; now rewrite app_nil_r.
Qed.

Lemma correlate_logged (tscOut files : list string) (init : nat) :
  logged (trace (reduceM (checkFile tscOut) files init))
  = flat_map (fun file => filter (fun line => Js.includes line file) tscOut) files.
Proof.
  revert init. induction files as [|f files IH]; intros init; [reflexivity|].
  cbn [reduceM flat_map]. rewrite trace_bind, logged_app, checkFile_logged.
  destruct (checkFile_run tscOut init f) as (t & E & _). rewrite E.
  cbn [outcome snd]. now rewrite IH.
Qed.

Lemma matches_length (files lines : list string) :
  List.length (flat_map (fun file => filter (fun line => Js.includes line file) lines) files)
  = sumCounts files lines.
Proof.
  unfold sumCounts. induction files as [|f files IH]; [reflexivity|].
  cbn [flat_map map]. change (list_sum (?x :: ?l)) with (x + list_sum l).
  now rewrite length_app, IH.
Qed.

Lemma checkChangedFiles_trace (w : World) (options : TypeScriptOptions)
    (changedFiles excludedFiles : list string) :
  changedFiles <> [] ->
  trace (checkChangedFiles w options changedFiles excludedFiles)
  = EvExeca "tsc" (compileArgs options)
      :: match compileOutput w options with
         | Ok lines =>
             trace (reduceM (checkFile lines) (includedOf changedFiles excludedFiles) 0)
         | Throw _ => []
         end.
Proof.
  intros N. unfold checkChangedFiles.
  destruct changedFiles as [|c cs]; [congruence|]. cbn [List.length Nat.eqb].
  rewrite trace_bind, getTypeScriptCompileOutput_run. cbn [trace outcome fst snd app].
  f_equal. destruct (compileOutput w options) as [lines|e]; [|reflexivity].
  rewrite trace_bind.
  destruct (correlate_run lines (includedOf (c :: cs) excludedFiles) 0) as (t & E & _).
  rewrite E. cbn. now rewrite app_nil_r.
Qed.

(** X9: in a run that returns a result the lines printed with [console.log]
    are, file after file in the order of the included files, the compiler
    lines that contain the file's path, in the compiler's order; a line that
    contains several included paths is printed once for each.  So [errors] is
    the number of printed lines. *)
Theorem X9_printed_lines_are_the_counted_lines (w : World) (args : Args)
    (r : StrictifyResult) :
  outcome (strictify w args) = Ok r ->
  logged (trace (strictify w args))
  = flat_map (fun file =>
                filter (fun line => Js.includes line file)
                       (diagnosticLines w (typeScriptOptions args)))
             (included w args) /\
  List.length (logged (trace (strictify w args))) = errors r.
Proof.
  intros O. pose proof (strictify_summary w args) as S. cbv zeta in S.
  rewrite O in S.
  assert (N : ignoreFilesChangedOnBranch args <> []).
  { intros E. rewrite E in S. now destruct S as (_ & _ & _ & S). }
  destruct (strictify_proceeds w args N) as (q1 & q2 & Q1 & Q2 & E).
  assert (L : logged (trace (strictify w args))
              = logged (trace (checkChangedFiles w (typeScriptOptions args)
                                 (changeSet w args) (exclusionSet w args)))).
  { rewrite E. cbn [trace fst].
    destruct (quiet_mute Q1) as [L1 _]. destruct (quiet_mute Q2) as [L2 _].
    rewrite logged_app, L1. cbn [app logged]. rewrite logged_app, L2. reflexivity. }
  rewrite L. clear L E.
  destruct (ignoreFilesChangedOnBranch args); [congruence|].
  destruct S as [_ S]. unfold included in *. unfold diagnosticLines.
  destruct (changeSet w args) as [|c cs].
  - destruct S as (_ & _ & S). inversion S. now split.
  - destruct S as [_ S].
    rewrite checkChangedFiles_trace by congruence.
    destruct (compileOutput w (typeScriptOptions args)) as [lines|e];
      [|now destruct S as [_ S]].
    destruct S as [_ S]. inversion S. cbn [logged verdict errors].
    rewrite correlate_logged. split; [reflexivity | apply matches_length].
Qed.

Lemma X9_printed_lines_are_the_counted_lines_witness :
  outcome (strictify Example.world Example.args)
  = Ok {| success := false; errors := 2 |} /\
  List.length (logged (trace (strictify Example.world Example.args))) = 2.
Proof.
  split; [reflexivity|].
  exact (proj2 (X9_printed_lines_are_the_counted_lines Example.world Example.args
                  (r := {| success := false; errors := 2 |}) eq_refl)).
Defined.

(** ** Paths inside paths (line 129) *)

Lemma string_app_assoc (a b c : string) :
  ((a ++ b) ++ c)%string = (a ++ b ++ c)%string.
Proof. induction a as [|x a IH]; [reflexivity|]. cbn. now rewrite IH. Qed.

Lemma includes_trans (line g f : string) :
  Js.includes g f = true -> Js.includes line g = true -> Js.includes line f = true.
Proof.
  rewrite !JsFacts.includes_spec. intros (p & q & ->) (p' & q' & ->).
  exists (p' ++ p)%string, (q ++ q')%string.
  now rewrite !string_app_assoc.
Qed.

Lemma countFor_le (f g : string) (lines : list string) :
  (forall line, Js.includes line g = true -> Js.includes line f = true) ->
  countFor g lines <= countFor f lines.
Proof.
  intros H. induction lines as [|line rest IH]; [apply Nat.le_refl|].
  rewrite !countFor_cons. specialize (H line).
  destruct (Js.includes line g); [rewrite H by reflexivity|]; 
    destruct (Js.includes line f); lia.
Qed.

(** X10: matching is by substring, so when the path of an included file [f]
    occurs inside another path [g], every compiler line counted for [g] is
    counted for [f] too: the count of [f] is at least that of [g], and
    whenever [onCheckFile(g, true)] is called so is [onCheckFile(f, true)]. *)
Theorem X10_a_path_inside_another_inherits_its_lines (w : World) (args : Args)
    (lines : list string) (f g : string) :
  reachesCorrelation w args lines ->
  In f (included w args) ->
  Js.includes g f = true ->
  countFor g lines <= countFor f lines /\
  (In (EvCheckFile g true) (trace (strictify w args)) ->
   In (EvCheckFile f true) (trace (strictify w args))).
Proof.
  intros (N & C & L) I G.
  assert (T : forall line, Js.includes line g = true -> Js.includes line f = true)
    by (intros line; now apply includes_trans).
  split; [now apply countFor_le|].
  pose proof (strictify_summary w args) as S. cbv zeta in S.
  destruct (ignoreFilesChangedOnBranch args); [congruence|].
  destruct S as [_ S]. destruct (changeSet w args); [congruence|].
  destruct S as [_ S]. rewrite L in S. destruct S as [S _].
  rewrite !In_checkEvents, S, !in_map_iff.
  intros (x & E & _). injection E as -> Hg. exists f. split; [|exact I].
  f_equal. unfold hasDiagnostics in *. apply existsb_exists.
  apply existsb_exists in Hg. destruct Hg as (line & Il & Hl).
  exists line. auto.
Qed.

Lemma X10_a_path_inside_another_inherits_its_lines_witness :
  included Example.nested Example.args = ["app.ts"; "lib/app.ts"] /\
  countFor "lib/app.ts" (diagnosticLines Example.nested Example.options) = 1 /\
  1 <= countFor "app.ts" (diagnosticLines Example.nested Example.options) /\
  In (EvCheckFile "app.ts" true) (trace (strictify Example.nested Example.args)).
Proof.
  assert (R : reachesCorrelation Example.nested Example.args
                (diagnosticLines Example.nested Example.options)).
  { repeat split; vm_compute; discriminate. }
  destruct (@X10_a_path_inside_another_inherits_its_lines Example.nested Example.args
              _ "app.ts" "lib/app.ts" R) as [C T].
  - vm_compute. tauto.
  - reflexivity.
  - split; [reflexivity|]. split; [reflexivity|]. split; [exact C|].
    apply T. vm_compute. tauto.
Defined.

(** ** More branches to ignore (lines 100-122) *)

Lemma exclusionSet_In (w : World) (args : Args) (f : string) :
  In f (exclusionSet w args)
  <-> exists branch,
        In branch (ignoreFilesChangedOnBranch args) /\
        In f (diffFiles w (forkPoint w branch (targetBranch args)) branch).
Proof.
  unfold exclusionSet. rewrite in_concat. split.
  - intros (l & Hl & Hf). apply in_map_iff in Hl. destruct Hl as (b & <- & Hb).
    now exists b.
  - intros (b & Hb & Hf). eexists. split; [|exact Hf].
    apply in_map_iff. now exists b.
Qed.

Lemma includedOf_more (changedFiles ex1 ex2 : list string) :
  (forall f, In f ex1 -> In f ex2) ->
  includedOf changedFiles ex2
  = filter (fun f => negb (Js.arrayIncludes ex2 f)) (includedOf changedFiles ex1).
Proof.
  intros H. unfold includedOf.
  induction changedFiles as [|c cs IH]; [reflexivity|]. cbn [filter].
  destruct (Js.arrayIncludes ex1 c) eqn:E1; cbn [negb].
  - apply JsFacts.arrayIncludes_In, H, JsFacts.arrayIncludes_In in E1.
    now rewrite E1.
  - cbn [filter]. destruct (Js.arrayIncludes ex2 c); cbn [negb]; now rewrite IH.
Qed.

Lemma includedOf_same (changedFiles ex1 ex2 : list string) :
  (forall f, In f ex1 <-> In f ex2) ->
  includedOf changedFiles ex1 = includedOf changedFiles ex2.
Proof.
  intros H. unfold includedOf. apply filter_ext. intros f. f_equal.
  destruct (Js.arrayIncludes ex2 f) eqn:E.
  - apply JsFacts.arrayIncludes_In. apply H. now apply JsFacts.arrayIncludes_In.
  - apply JsFacts.arrayIncludes_false. rewrite H. now apply JsFacts.arrayIncludes_false.
Qed.

Lemma sumCounts_filter_le (P : string -> bool) (files lines : list string) :
  sumCounts (filter P files) lines <= sumCounts files lines.
Proof.
  unfold sumCounts. induction files as [|f files IH]; [apply Nat.le_refl|].
  cbn [filter]. destruct (P f); cbn [map];
    change (list_sum (?x :: ?l)) with (x + list_sum l); lia.
Qed.

(** X11: adding branches to ignore never makes the result worse.  If a run
    returns a result, the run with every one of its branches and more to
    ignore (same options, same target branch, same repository) returns a
    result too, with no more errors; a success stays a success. *)
Theorem X11_ignoring_more_never_adds_errors (w : World) (options : TypeScriptOptions)
    (target : string) (fewer more : list string) (r : StrictifyResult) :
  (forall branch, In branch fewer -> In branch more) ->
  outcome (strictify w (argsWith options target fewer)) = Ok r ->
  exists r',
    outcome (strictify w (argsWith options target more)) = Ok r' /\
    errors r' <= errors r /\
    (success r = true -> success r' = true).
Proof.
  intros H O.
  pose proof (strictify_summary w (argsWith options target fewer)) as S1.
  pose proof (strictify_summary w (argsWith options target more)) as S2.
  cbv zeta in S1, S2. rewrite O in S1.
  assert (X : forall f, In f (exclusionSet w (argsWith options target fewer)) ->
                        In f (exclusionSet w (argsWith options target more))).
  { intros f. rewrite !exclusionSet_In. intros (b & Hb & Hf). exists b.
    split; [apply H, Hb | exact Hf]. }
  unfold included in *.
  change (changeSet w (argsWith options target more))
    with (changeSet w (argsWith options target fewer)) in S2.
  cbn [argsWith ignoreFilesChangedOnBranch typeScriptOptions] in S1, S2.
  destruct fewer as [|b bs]; [now destruct S1 as (_ & _ & _ & S1)|].
  destruct more as [|b' bs']; [destruct (H b (or_introl eq_refl))|].
  destruct S1 as [_ S1]. destruct S2 as [_ S2].
  destruct (changeSet w (argsWith options target (b :: bs))) as [|c cs].
  - destruct S1 as (_ & _ & S1). destruct S2 as (_ & _ & S2).
    injection S1 as ->. eexists. split; [exact S2|]. cbn. auto.
  - destruct S1 as [_ S1]. destruct S2 as [_ S2].
    destruct (compileOutput w options) as [lines|e]; [|now destruct S1 as [_ S1]].
    destruct S1 as [_ S1]. destruct S2 as [_ S2].
    rewrite (@includedOf_more (c :: cs) _ _ X) in S2.
    pose proof (sumCounts_filter_le
                  (fun f => negb (Js.arrayIncludes
                     (exclusionSet w (argsWith options target (b' :: bs'))) f))
                  (includedOf (c :: cs) (exclusionSet w (argsWith options target (b :: bs))))
                  lines) as Le.
    revert S1 S2 Le.
    generalize (sumCounts
                  (includedOf (c :: cs) (exclusionSet w (argsWith options target (b :: bs))))
                  lines).
    generalize (sumCounts
                  (filter (fun f => negb (Js.arrayIncludes
                     (exclusionSet w (argsWith options target (b' :: bs'))) f))
                     (includedOf (c :: cs)
                        (exclusionSet w (argsWith options target (b :: bs)))))
                  lines).
    intros n' n S1 S2 Le. injection S1 as ->.
    eexists. split; [exact S2|]. cbn [verdict errors success].
    split; [exact Le|]. rewrite !Nat.eqb_eq. lia.
Qed.

Lemma X11_ignoring_more_never_adds_errors_witness :
  outcome (strictify Example.world (argsWith Example.options "master" ["feature"]))
  = Ok {| success := false; errors := 2 |} /\
  exists r',
    outcome (strictify Example.world
               (argsWith Example.options "master" ["other"; "feature"])) = Ok r' /\
    errors r' <= 2.
Proof.
  split; [reflexivity|].
  destruct (@X11_ignoring_more_never_adds_errors Example.world Example.options "master"
              ["feature"] ["other"; "feature"] {| success := false; errors := 2 |})
    as (r' & O & L & _).
  - intros branch [<-|[]]. right. left. reflexivity.
  - reflexivity.
  - exists r'. split; [exact O | exact L].
Defined.

(** X12: only the set of branches to ignore matters.  Two non-empty lists
    with the same members, in any order and with any repetition, give the
    same result and the same [onCheckFile] calls in the same order. *)
Theorem X12_order_and_repetition_of_branches_are_immaterial (w : World)
    (options : TypeScriptOptions) (target : string) (l1 l2 : list string) :
  l1 <> [] ->
  (forall branch, In branch l1 <-> In branch l2) ->
  outcome (strictify w (argsWith options target l1))
  = outcome (strictify w (argsWith options target l2)) /\
  checkEvents (trace (strictify w (argsWith options target l1)))
  = checkEvents (trace (strictify w (argsWith options target l2))).
Proof.
  intros N H.
  pose proof (strictify_summary w (argsWith options target l1)) as S1.
  pose proof (strictify_summary w (argsWith options target l2)) as S2.
  cbv zeta in S1, S2.
  assert (X : forall f, In f (exclusionSet w (argsWith options target l1)) <->
                        In f (exclusionSet w (argsWith options target l2))).
  { intros f. rewrite !exclusionSet_In.
    split; intros (b & Hb & Hf); exists b; (split; [apply H, Hb | exact Hf]). }
  unfold included in *.
  change (changeSet w (argsWith options target l2))
    with (changeSet w (argsWith options target l1)) in S2.
  rewrite <- (@includedOf_same _ _ _ X) in S2.
  cbn [argsWith ignoreFilesChangedOnBranch typeScriptOptions] in S1, S2.
  destruct l1 as [|b bs]; [congruence|].
  destruct l2 as [|b' bs']; [destruct (proj1 (H b) (or_introl eq_refl))|].
  destruct S1 as [_ S1]. destruct S2 as [_ S2].
  destruct (changeSet w (argsWith options target (b :: bs))) as [|c cs].
  - destruct S1 as (_ & -> & ->). destruct S2 as (_ & -> & ->). now split.
  - destruct S1 as [_ S1]. destruct S2 as [_ S2].
    destruct (compileOutput w options) as [lines|e];
      destruct S1 as [-> ->]; destruct S2 as [-> ->]; now split.
Qed.

Lemma X12_order_and_repetition_of_branches_are_immaterial_witness :
  outcome (strictify Example.world
             (argsWith Example.options "master" ["feature"; "other"; "feature"]))
  = Ok {| success := false; errors := 2 |}.
Proof.
  rewrite <- (proj1 (@X12_order_and_repetition_of_branches_are_immaterial Example.world
                       Example.options "master" ["other"; "feature"]
                       ["feature"; "other"; "feature"] ltac:(discriminate)
                       ltac:(intros branch; cbn; tauto))).
  reflexivity.
Defined.

(** ** When git has no answer (lines 6-28 and 110-118) *)

(** X13: when the fork point of [HEAD] is unknown the change set is made of
    the working-tree files alone; if the status query fails as well, a run
    with a branch to ignore reports [{success: true, errors: 0}] without
    spawning the compiler. *)
Theorem X13_unknown_fork_point_leaves_the_working_tree (w : World) (args : Args) :
  forkPoint w "HEAD" (targetBranch args) = None ->
  changeSet w args
  = filter isSupportedExtension (Js.arrayFromSet (workingTreeChanges w)) /\
  (status w = None ->
   ignoreFilesChangedOnBranch args <> [] ->
   outcome (strictify w args) = Ok {| success := true; errors := 0 |} /\
   compilerRuns (trace (strictify w args)) = 0).
Proof.
  intros F.
  assert (E : changeSet w args
              = filter isSupportedExtension (Js.arrayFromSet (workingTreeChanges w))).
  { unfold changeSet, unfilteredChanges. rewrite F. cbn [diffFiles].
    now rewrite app_nil_r. }
  split; [exact E|]. intros St N.
  assert (Z : changeSet w args = []).
  { rewrite E. unfold workingTreeChanges. now rewrite St. }
  destruct (short_circuit w args N Z) as (O & R & _). now split.
Qed.

Lemma X13_unknown_fork_point_leaves_the_working_tree_witness :
  changeSet Example.silent Example.args = [] /\
  outcome (strictify Example.silent Example.args)
  = Ok {| success := true; errors := 0 |} /\
  compilerRuns (trace (strictify Example.silent Example.args)) = 0.
Proof.
  destruct (@X13_unknown_fork_point_leaves_the_working_tree Example.silent Example.args
              eq_refl) as [E S].
  split; [rewrite E; reflexivity|].
  apply S; [reflexivity | discriminate].
Defined.

(** ** The exclusion set of a non-empty list (lines 100-108) *)

(** X14: with at least one branch to ignore the exclusion step does not
    throw; it resolves to the files of the per-branch diffs, and a file is
    excluded exactly when some listed branch has a known fork point and the
    diff summary from that fork point to the branch succeeds and names the
    file.  A branch with no fork point, or whose diff fails, excludes
    nothing. *)
Theorem X14_what_a_branch_excludes (w : World) (args : Args) :
  ignoreFilesChangedOnBranch args <> [] ->
  outcome (findExcludedFiles w args) = Ok (exclusionSet w args) /\
  (forall f,
      In f (exclusionSet w args)
      <-> exists branch base summary,
            In branch (ignoreFilesChangedOnBranch args) /\
            forkPoint w branch (targetBranch args) = Some base /\
            diffSummary w base branch = Some summary /\
            In f (map file (files summary))).
Proof.
  intros N.
  split; [now destruct (resolves_outcome (findExcludedFiles_resolves w args N))|].
  intros f. rewrite exclusionSet_In. unfold diffFiles. split.
  - intros (b & Hb & Hf).
    destruct (forkPoint w b (targetBranch args)) as [base|] eqn:F; [|destruct Hf].
    destruct (diffSummary w base b) as [summary|] eqn:D; [|destruct Hf].
    exists b, base, summary. repeat split; assumption.
  - intros (b & base & summary & Hb & F & D & Hf). exists b.
    split; [exact Hb|]. now rewrite F, D.
Qed.

Lemma X14_what_a_branch_excludes_witness :
  outcome (findExcludedFiles Example.world
             (argsWith Example.options "master" ["other"; "feature"]))
  = Ok ["src/lib.ts"] /\
  In "src/lib.ts" (exclusionSet Example.world
                     (argsWith Example.options "master" ["other"; "feature"])).
Proof.
  destruct (@X14_what_a_branch_excludes Example.world
              (argsWith Example.options "master" ["other"; "feature"])
              ltac:(discriminate)) as [O I].
  split; [rewrite O; reflexivity|].
  apply I. exists "feature", "def456", {| files := [ {| file := "src/lib.ts" |} ] |}.
  repeat split; cbn; tauto.
Defined.

(** ** The order of the change set (line 113) *)

Lemma fold_setAdd_fresh (arr set : list string) :
  NoDup (set ++ arr) -> fold_left Js.setAdd arr set = set ++ arr.
Proof.
  revert set; induction arr as [|x arr IH]; intros set N; cbn [fold_left].
  - now rewrite app_nil_r.
  - assert (F : Js.arrayIncludes set x = false).
    { apply JsFacts.arrayIncludes_false. intros I.
      apply NoDup_remove_2 in N. apply N, in_or_app. now left. }
    unfold Js.setAdd at 2. rewrite F.
    change (x :: arr) with ([x] ++ arr) in N. rewrite app_assoc in N.
    rewrite (IH _ N), <- app_assoc. reflexivity.
Qed.

(** X15: when git names no file twice (the working-tree files and the files
    of the diff together have no repetition), the change set is the supported
    working-tree files, in git's order, followed by the supported files of
    the diff, in the diff's order. *)
Theorem X15_change_set_keeps_discovery_order (w : World) (args : Args) :
  NoDup (unfilteredChanges w args) ->
  changeSet w args
  = filter isSupportedExtension (workingTreeChanges w)
    ++ filter isSupportedExtension
         (diffFiles w (forkPoint w "HEAD" (targetBranch args)) "HEAD").
Proof.
  intros N. unfold changeSet, Js.arrayFromSet.
  rewrite (fold_setAdd_fresh (unfilteredChanges w args) [] N).
  cbn [app]. unfold unfilteredChanges. apply filter_app.
Qed.

Lemma X15_change_set_keeps_discovery_order_witness :
  changeSet Example.nested Example.args = ["app.ts"; "lib/app.ts"] ++ [].
Proof.
  apply (@X15_change_set_keeps_discovery_order Example.nested Example.args).
  vm_compute. repeat constructor; cbn; intuition discriminate.
Defined.

(** ** A compiler with nothing to say (lines 51-58 and 126-143) *)

Lemma supported_not_empty (f : string) : isSupportedExtension f = true -> f <> "".
Proof. intros H ->. discriminate. Qed.

Lemma empty_line_matches_nothing (f : string) :
  f <> "" -> hasDiagnostics f (Js.split "010" "") = false.
Proof. intros N. destruct f; [congruence | reflexivity]. Qed.

(** X16: when the compiler ends normally, and also when its invocation is
    rejected with empty captured output (as when nothing could be run), a run
    that reaches the compiler calls [onCheckFile(file, false)] for every
    included file and returns [{success: true, errors: 0}]. *)
Theorem X16_no_output_is_success (w : World) (args : Args) :
  ignoreFilesChangedOnBranch args <> [] ->
  changeSet w args <> [] ->
  (exists out, execa w "tsc" (compileArgs (typeScriptOptions args)) = Resolved out) \/
  (exists error, execa w "tsc" (compileArgs (typeScriptOptions args)) = Rejected error /\
                 all error = Some "") ->
  outcome (strictify w args) = Ok {| success := true; errors := 0 |} /\
  checkEvents (trace (strictify w args))
  = map (fun file => (file, false)) (included w args).
Proof.
  intros N C X. pose proof (strictify_summary w args) as S. cbv zeta in S.
  destruct (ignoreFilesChangedOnBranch args); [congruence|].
  destruct S as [_ S]. destruct (changeSet w args) eqn:CS; [congruence|].
  destruct S as [_ S].
  assert (I : forall f, In f (included w args) -> f <> "").
  { intros f H. apply includedOf_In in H. destruct H as [H _].
    unfold changeSet in H. apply filter_In in H. now apply supported_not_empty. }
  assert (L : exists lines,
             compileOutput w (typeScriptOptions args) = Ok lines /\
             forall f, In f (included w args) -> hasDiagnostics f lines = false).
  { unfold compileOutput. destruct X as [[out ->]|(error & -> & ->)].
    - exists []. now split.
    - eexists. split; [reflexivity|]. intros f H.
      apply empty_line_matches_nothing, I, H. }
  destruct L as (lines & L & H). rewrite L in S. destruct S as [-> ->].
  assert (E : map (fun file => (file, hasDiagnostics file lines)) (included w args)
              = map (fun file => (file, false)) (included w args)).
  { apply map_ext_in. intros f If. now rewrite (H f If). }
  split; [|exact E]. f_equal. unfold verdict.
  assert (Z : sumCounts (included w args) lines = 0).
  { apply Nat.eqb_eq. rewrite sumCounts_zero. apply forallb_forall.
    intros f If. now rewrite (H f If). }
  now rewrite Z.
Qed.

Lemma X16_no_output_is_success_witness :
  outcome (strictify Example.passing Example.args)
  = Ok {| success := true; errors := 0 |} /\
  outcome (strictify (Example.absent (Some "")) Example.args)
  = Ok {| success := true; errors := 0 |}.
Proof.
  split.
  - apply (@X16_no_output_is_success Example.passing Example.args);
      [discriminate | vm_compute; discriminate |].
    left. exists "". reflexivity.
  - apply (@X16_no_output_is_success (Example.absent (Some "")) Example.args);
      [discriminate | vm_compute; discriminate |].
    right. eexists. split; reflexivity.
Defined.
